(** * code-doc-assistant: the connect and generate flows of [src/main.js]

    A shallow embedding of the repository content acquisition and
    file-selection pipeline of [src/main.js] (the connect handler, the
    GitHub content helpers, the source file selector and the documentation
    generator), followed by the properties the specification states about
    them.

    Conventions of the embedding:
    - a JavaScript string is a [string]; its code units are the characters
      of [Ascii.ascii], and [toLowerCase] acts on the letters A to Z;
    - a thrown value is a [JsError];
    - the helpers that only talk to the network are computations in
      [Net.t]: an outcome (a value, a thrown error, or fuel exhausted) and
      the list of requests issued on the way; the two handlers are
      computations in [M.t], which threads the page: the state of the
      controls, [localStorage], the log of requests;
    - the remote services, the build-time environment and the browser
      built-ins the code calls ([atob], [JSON.parse], [JSON.stringify]) are
      the fields of an [Env]; a service answers a request by a function of
      the request, so every definition can be run on a concrete
      environment;
    - of the markup written to the page only the class lists that the two
      view buttons change are kept; of the rest of the presentation, the
      enabled state of the controls, the last notification and the text on
      display. *)

From Stdlib Require Import ZArith Ascii String List Bool Sorting.Sorted Sorting.Permutation.
From stdpp Require Import base gmap strings list pretty.

Set Warnings "-register-all".

(** ** JavaScript strings *)

Module JsString.

(** [s.startsWith(p)] *)
Fixpoint startsWith (p s : string) : bool :=
  match p, s with
  | EmptyString, _ => true
  | String a p', String b s' => if Ascii.eqb a b then startsWith p' s' else false
  | String _ _, EmptyString => false
  end.

(** [s.includes(p)]: [p] occurs at some position of [s]. *)
Fixpoint includes (p s : string) : bool :=
  startsWith p s ||
  match s with
  | EmptyString => false
  | String _ s' => includes p s'
  end.

(** [s.endsWith(p)]: [p] occurs at position [s.length - p.length]. *)
Fixpoint endsWith (p s : string) : bool :=
  match s with
  | EmptyString => String.eqb p EmptyString
  | String _ s' => String.eqb p s || endsWith p s'
  end.

Definition lower_ascii (c : ascii) : ascii :=
  let n := nat_of_ascii c in
  if (65 <=? n) && (n <=? 90) then ascii_of_nat (n + 32) else c.

(** [s.toLowerCase()] *)
Fixpoint toLowerCase (s : string) : string :=
  match s with
  | EmptyString => EmptyString
  | String c s' => String (lower_ascii c) (toLowerCase s')
  end.

(** The line feed of a template literal that spans lines. *)
Definition nl : string := String (ascii_of_nat 10) EmptyString.

(** A string used as a condition: only the empty string is falsy. *)
Definition truthy (s : string) : bool := negb (String.eqb s EmptyString).

(** [r] is a contiguous substring of [s]. *)
Definition Substring (r s : string) : Prop :=
  exists pre post : string, s = pre +:+ r +:+ post.

End JsString.

Import JsString.

(** ** Thrown values *)

(** The values the code can throw or receive as a rejection.  [Error] is
    [new Error(message)] thrown by the code itself; [AxiosError] is a
    rejected request, with [error.response?.status] when the server
    answered; [TypeError], [SyntaxError] and [DOMException] are raised by
    the engine (a property read on [undefined], a value that is not
    iterable, [JSON.parse], [atob]). *)
Inductive JsError : Type :=
| Error (message : string)
| AxiosError (message : string) (status : option Z)
| TypeError (message : string)
| SyntaxError (message : string)
| DOMException (message : string).

Definition message (e : JsError) : string :=
  match e with
  | Error m | AxiosError m _ | TypeError m | SyntaxError m | DOMException m => m
  end.

(** [error.response?.status] *)
Definition response_status (e : JsError) : option Z :=
  match e with
  | AxiosError _ st => st
  | _ => None
  end.

(** The specification's names for the failures (its error taxonomy),
    for the errors the code itself creates or tells apart.  The errors of
    the guards of the two handlers are named after what their message
    reports (a missing credential, missing or malformed input); a rejected
    request is named the way the handler of [connectRepository] tells them
    apart, by the response status.  What the engine, a built-in or another
    library raises ([TypeError], [SyntaxError], [DOMException], an [Error]
    with another message) is raised by no statement of the code and has no
    name. *)
Inductive ErrorClass : Type :=
| ConfigError | AuthError | NotFoundError | InputError | TransportError.

Definition classify (e : JsError) : option ErrorClass :=
  match e with
  | Error m =>
      if String.eqb m "GitHub token is not configured"
         || String.eqb m "OpenAI API key is not configured"
      then Some ConfigError
      else if String.eqb m "Please enter a repository URL"
              || String.eqb m "Invalid GitHub repository URL"
              || String.eqb m "Please connect a repository first"
              || String.eqb m "No source files found. Please ensure the repository contains JavaScript/TypeScript files."
      then Some InputError
      else None
  | AxiosError _ (Some 401%Z) => Some AuthError
  | AxiosError _ (Some 404%Z) => Some NotFoundError
  | AxiosError _ _ => Some TransportError
  | TypeError _ | SyntaxError _ | DOMException _ => None
  end.

(** ** Data *)

(** A parsed JSON document, or any value read from a response body.
    Numbers are kept as integers: the code never computes with them. An
    object lists its own properties, each key once. *)
Inductive JsValue : Type :=
| JUndefined
| JNull
| JBool (b : bool)
| JNumber (n : Z)
| JString (s : string)
| JArray (items : list JsValue)
| JObject (fields : list (string * JsValue)).

(** A value used as a condition. *)
Definition truthy_value (v : JsValue) : bool :=
  match v with
  | JUndefined | JNull => false
  | JBool b => b
  | JNumber n => negb (n =? 0)%Z
  | JString s => truthy s
  | JArray _ | JObject _ => true
  end.

Fixpoint assoc (k : string) (fields : list (string * JsValue)) : JsValue :=
  match fields with
  | [] => JUndefined
  | (k', v) :: rest => if String.eqb k k' then v else assoc k rest
  end.

(** [v.k] for a property name [k] that is not an array index: reading a
    property of [undefined] or [null] throws, an object answers with its
    property, every other value has no such property. *)
Definition get_prop (v : JsValue) (k : string) : JsError + JsValue :=
  match v with
  | JUndefined => inl (TypeError ("Cannot read properties of undefined (reading '" +:+ k +:+ "')"))
  | JNull => inl (TypeError ("Cannot read properties of null (reading '" +:+ k +:+ "')"))
  | JObject fields => inr (assoc k fields)
  | _ => inr JUndefined
  end.

(** [v[0]] *)
Definition get_first (v : JsValue) : JsError + JsValue :=
  match v with
  | JUndefined => inl (TypeError "Cannot read properties of undefined (reading '0')")
  | JNull => inl (TypeError "Cannot read properties of null (reading '0')")
  | JArray items => inr (List.hd JUndefined items)
  | JString (String c _) => inr (JString (String c EmptyString))
  | JObject fields => inr (assoc "0" fields)
  | _ => inr JUndefined
  end.

(** The cached entity: [{ owner, repo }]. *)
Record RepositoryIdentity : Type := { owner : string; repo : string }.

(** [{ description, packageJson, readme }]; [None] is [null], and a
    manifest that was not read is [JNull]. *)
Record RepositoryStructure : Type :=
  { description : option string;
    packageJson : JsValue;
    readme : option string }.

(** An entry of a directory listing of the contents API. *)
Module Item.
Record t : Type := { name : string; path : string; type : string }.
End Item.

(** [{ path, content }] *)
Module SourceFile.
Record t : Type := { path : string; content : string }.
End SourceFile.

(** The body of [GET /repos/{owner}/{repo}]. *)
Record RepoData : Type := { repo_description : option string }.

(** The body of [GET /repos/{owner}/{repo}/contents/{path}]: an array of
    entries when the path is a directory, an object with the base64 text
    when it is a file. *)
Inductive ContentsData : Type :=
| Listing (items : list Item.t)
| Envelope (base64 : string).

(** The body posted to the completion endpoint. *)
Record ChatMessage : Type := { role : string; content : string }.

Record ChatRequest : Type :=
  { model : string;
    messages : list ChatMessage;
    temperature : Z * Z;   (* numerator and denominator: 0.7 is (7, 10) *)
    max_tokens : Z }.

(** ** The environment *)

(** What the network layer gives back for a request: no answer at all, or
    an answer with a status and a body. *)
Inductive HttpReply (A : Type) : Type :=
| NoResponse (reason : string)
| Response (status : Z) (data : A).
Arguments NoResponse {A} _.
Arguments Response {A} _ _.

Record Env : Type :=
  { VITE_GITHUB_TOKEN : option string;
    VITE_OPENAI_API_KEY : option string;
    (* GET https://api.github.com/repos/{owner}/{repo} *)
    github_repos : string -> string -> HttpReply RepoData;
    (* GET https://api.github.com/repos/{owner}/{repo}/contents/{path} *)
    github_contents : string -> string -> string -> HttpReply ContentsData;
    (* POST https://api.openai.com/v1/chat/completions *)
    openai_chat_completions : ChatRequest -> HttpReply JsValue;
    (* browser built-ins; [None] is the exception they throw *)
    atob : string -> option string;
    JSON_parse : string -> option JsValue;
    (* JSON.stringify(v, null, 2) of a value that is not undefined *)
    JSON_stringify : JsValue -> string }.

(** A setting of [import.meta.env] used as a condition. *)
Definition configured (v : option string) : bool :=
  match v with
  | Some s => truthy s
  | None => false
  end.

(** The requests a run issues, in order. *)
Inductive Request : Type :=
| GetRepo (owner repo : string)
| GetContents (owner repo path : string)
| PostChatCompletions (body : ChatRequest).

(** ** Outcomes and the two monads *)

(** How a call ends.  [OutOfFuel] belongs to the model only: the recursive
    walk is bounded by a fuel argument, and no [catch] observes its
    exhaustion. *)
Inductive Outcome (A : Type) : Type :=
| Val (a : A)
| Exn (e : JsError)
| OutOfFuel.
Arguments Val {A} _.
Arguments Exn {A} _.
Arguments OutOfFuel {A}.

(** The helpers that only talk to the network: an outcome and the requests
    issued on the way. *)
Module Net.
Definition t (A : Type) : Type := (Outcome A * list Request)%type.

Definition ret {A} (a : A) : t A := (Val a, []).
Definition throw {A} (e : JsError) : t A := (Exn e, []).
Definition out_of_fuel {A} : t A := (OutOfFuel, []).

Definition bind {A B} (m : t A) (k : A -> t B) : t B :=
  match m with
  | (Val a, log) => let (o, log') := k a in (o, log ++ log')
  | (Exn e, log) => (Exn e, log)
  | (OutOfFuel, log) => (OutOfFuel, log)
  end.

(** [try { m } catch (error) { handler(error) }] *)
Definition try_catch {A} (m : t A) (handler : JsError -> t A) : t A :=
  match m with
  | (Exn e, log) => let (o, log') := handler e in (o, log ++ log')
  | _ => m
  end.

(** [for (const x of xs) { acc = body(x, acc) }] *)
Fixpoint for_of {A B} (xs : list A) (body : A -> B -> t B) (acc : B) : t B :=
  match xs with
  | [] => ret acc
  | x :: rest => bind (body x acc) (for_of rest body)
  end.

Definition outcome {A} (m : t A) : Outcome A := fst m.
Definition issued {A} (m : t A) : list Request := snd m.
End Net.

Notation "'let*' x ':=' m 'in' k" := (Net.bind m (fun x => k))
  (at level 10, x name, m at level 100, k at level 200).

(** ** The page *)

Inductive StatusType : Type := success | error.

(** What the handlers read and change: the controls they enable and
    disable, the last notification shown, the documentation on display,
    [localStorage] (each slot holds the record whose JSON text the browser
    stores), and the requests issued so far. *)
Record Page : Type :=
  { repoUrlInput_value : string;
    repoUrlInput_disabled : bool;
    connectRepoBtn_disabled : bool;
    generateDocBtn_disabled : bool;
    loadingIndicator_hidden : bool;
    statusCard : option (string * StatusType);
    preview : option string;
    localStorage : gmap string RepositoryIdentity;
    requests : list Request }.

Module Page.
Definition set_repoUrlInput_disabled (b : bool) (p : Page) : Page :=
  {| repoUrlInput_value := repoUrlInput_value p;
     repoUrlInput_disabled := b;
     connectRepoBtn_disabled := connectRepoBtn_disabled p;
     generateDocBtn_disabled := generateDocBtn_disabled p;
     loadingIndicator_hidden := loadingIndicator_hidden p;
     statusCard := statusCard p;
     preview := preview p;
     localStorage := localStorage p;
     requests := requests p |}.

Definition set_connectRepoBtn_disabled (b : bool) (p : Page) : Page :=
  {| repoUrlInput_value := repoUrlInput_value p;
     repoUrlInput_disabled := repoUrlInput_disabled p;
     connectRepoBtn_disabled := b;
     generateDocBtn_disabled := generateDocBtn_disabled p;
     loadingIndicator_hidden := loadingIndicator_hidden p;
     statusCard := statusCard p;
     preview := preview p;
     localStorage := localStorage p;
     requests := requests p |}.

Definition set_generateDocBtn_disabled (b : bool) (p : Page) : Page :=
  {| repoUrlInput_value := repoUrlInput_value p;
     repoUrlInput_disabled := repoUrlInput_disabled p;
     connectRepoBtn_disabled := connectRepoBtn_disabled p;
     generateDocBtn_disabled := b;
     loadingIndicator_hidden := loadingIndicator_hidden p;
     statusCard := statusCard p;
     preview := preview p;
     localStorage := localStorage p;
     requests := requests p |}.

Definition set_loadingIndicator_hidden (b : bool) (p : Page) : Page :=
  {| repoUrlInput_value := repoUrlInput_value p;
     repoUrlInput_disabled := repoUrlInput_disabled p;
     connectRepoBtn_disabled := connectRepoBtn_disabled p;
     generateDocBtn_disabled := generateDocBtn_disabled p;
     loadingIndicator_hidden := b;
     statusCard := statusCard p;
     preview := preview p;
     localStorage := localStorage p;
     requests := requests p |}.

Definition set_statusCard (c : option (string * StatusType)) (p : Page) : Page :=
  {| repoUrlInput_value := repoUrlInput_value p;
     repoUrlInput_disabled := repoUrlInput_disabled p;
     connectRepoBtn_disabled := connectRepoBtn_disabled p;
     generateDocBtn_disabled := generateDocBtn_disabled p;
     loadingIndicator_hidden := loadingIndicator_hidden p;
     statusCard := c;
     preview := preview p;
     localStorage := localStorage p;
     requests := requests p |}.

Definition set_preview (d : option string) (p : Page) : Page :=
  {| repoUrlInput_value := repoUrlInput_value p;
     repoUrlInput_disabled := repoUrlInput_disabled p;
     connectRepoBtn_disabled := connectRepoBtn_disabled p;
     generateDocBtn_disabled := generateDocBtn_disabled p;
     loadingIndicator_hidden := loadingIndicator_hidden p;
     statusCard := statusCard p;
     preview := d;
     localStorage := localStorage p;
     requests := requests p |}.

Definition set_localStorage (m : gmap string RepositoryIdentity) (p : Page) : Page :=
  {| repoUrlInput_value := repoUrlInput_value p;
     repoUrlInput_disabled := repoUrlInput_disabled p;
     connectRepoBtn_disabled := connectRepoBtn_disabled p;
     generateDocBtn_disabled := generateDocBtn_disabled p;
     loadingIndicator_hidden := loadingIndicator_hidden p;
     statusCard := statusCard p;
     preview := preview p;
     localStorage := m;
     requests := requests p |}.

Definition set_requests (l : list Request) (p : Page) : Page :=
  {| repoUrlInput_value := repoUrlInput_value p;
     repoUrlInput_disabled := repoUrlInput_disabled p;
     connectRepoBtn_disabled := connectRepoBtn_disabled p;
     generateDocBtn_disabled := generateDocBtn_disabled p;
     loadingIndicator_hidden := loadingIndicator_hidden p;
     statusCard := statusCard p;
     preview := preview p;
     localStorage := localStorage p;
     requests := l |}.
End Page.

(** The handlers: a computation on the page. *)
Module M.
Definition t (A : Type) : Type := Page -> Outcome A * Page.

Definition ret {A} (a : A) : t A := fun p => (Val a, p).
Definition throw {A} (e : JsError) : t A := fun p => (Exn e, p).

Definition bind {A B} (m : t A) (k : A -> t B) : t B :=
  fun p =>
    match m p with
    | (Val a, p') => k a p'
    | (Exn e, p') => (Exn e, p')
    | (OutOfFuel, p') => (OutOfFuel, p')
    end.

(** [try { m } catch (error) { handler(error) }] *)
Definition try_catch {A} (m : t A) (handler : JsError -> t A) : t A :=
  fun p =>
    match m p with
    | (Exn e, p') => handler e p'
    | r => r
    end.

(** [try { m } finally { cleanup }], for a [cleanup] that does not throw. *)
Definition finally {A} (m : t A) (cleanup : Page -> Page) : t A :=
  fun p => let (o, p') := m p in (o, cleanup p').

(** A statement that only changes the page. *)
Definition modify (f : Page -> Page) : t unit := fun p => (Val tt, f p).

Definition read {A} (f : Page -> A) : t A := fun p => (Val (f p), p).

(** [await] of a network helper: its requests join the page's log. *)
Definition await {A} (n : Net.t A) : t A :=
  fun p => (Net.outcome n, Page.set_requests (requests p ++ Net.issued n) p).
End M.

Notation "'let!' x ':=' m 'in' k" := (M.bind m (fun x => k))
  (at level 10, x name, m at level 100, k at level 200).
Notation "m ';;' k" := (M.bind m (fun _ => k))
  (at level 100, k at level 200, right associativity).

(** ** The repository URL *)

(** [repoUrl.match(/github\.com\/([^/]+)\/([^/]+)/)]: the two groups of the
    leftmost match, [None] when the pattern matches nowhere. *)
Module RepoUrl.

Definition slash : ascii := "/"%char.

(** [[^/]*], greedy: the longest prefix without a slash, and the rest. *)
Fixpoint span_no_slash (s : string) : string * string :=
  match s with
  | EmptyString => (EmptyString, EmptyString)
  | String c s' =>
      if Ascii.eqb c slash then (EmptyString, s)
      else let (run, rest) := span_no_slash s' in (String c run, rest)
  end.

(** [s] without the prefix [p], when it starts with it. *)
Fixpoint strip_prefix (p s : string) : option string :=
  match p, s with
  | EmptyString, _ => Some s
  | String a p', String b s' => if Ascii.eqb a b then strip_prefix p' s' else None
  | String _ _, EmptyString => None
  end.

(** The pattern tried at the start of [s].  A group [[^/]+] that is
    followed by a slash in the pattern can only be the whole run of
    characters up to the next slash, so giving characters back never
    helps; the last group takes its whole run. *)
Definition match_here (s : string) : option (string * string) :=
  match strip_prefix "github.com/" s with
  | None => None
  | Some s1 =>
      let (g1, s2) := span_no_slash s1 in
      match g1, s2 with
      | String _ _, String _ s3 =>      (* s2 starts with the slash that stopped the run *)
          let (g2, _) := span_no_slash s3 in
          match g2 with
          | String _ _ => Some (g1, g2)
          | EmptyString => None
          end
      | _, _ => None
      end
  end.

(** The pattern is not anchored: it is tried at every position, from
    the left. *)
Fixpoint regex_match (s : string) : option (string * string) :=
  match match_here s with
  | Some groups => Some groups
  | None =>
      match s with
      | EmptyString => None
      | String _ s' => regex_match s'
      end
  end.

End RepoUrl.

(** Lines 83 to 93 of [connectRepository]: from the text of the input
    field to [owner] and [repo]. *)
Definition extract_identity (repoUrl : string) : JsError + RepositoryIdentity :=
  if negb (truthy repoUrl) then inl (Error "Please enter a repository URL")
  else
    match RepoUrl.regex_match repoUrl with
    | None => inl (Error "Invalid GitHub repository URL")
    | Some (owner, repo) => inr {| owner := owner; repo := repo |}
    end.

(** ** Requests *)

(** [{ status, data }] of a fulfilled request. *)
Record AxiosResponse (A : Type) : Type := { status : Z; data : A }.
Arguments status {A} _.
Arguments data {A} _.

(** How axios settles a reply: the promise is fulfilled exactly for a
    status from 200 to 299, and rejected with the status otherwise; no
    reply at all rejects without a [response]. *)
Definition settle {A} (r : HttpReply A) : Outcome (AxiosResponse A) :=
  match r with
  | NoResponse reason => Exn (AxiosError reason None)
  | Response st d =>
      if (200 <=? st)%Z && (st <? 300)%Z
      then Val {| status := st; data := d |}
      else Exn (AxiosError ("Request failed with status code " +:+ pretty st) (Some st))
  end.

(** ** Ordering the files *)

(** [l.findIndex(f)] *)
Fixpoint findIndex {A} (f : A -> bool) (l : list A) : Z :=
  match l with
  | [] => (-1)%Z
  | x :: rest =>
      if f x then 0%Z
      else let i := findIndex f rest in if (i =? -1)%Z then (-1)%Z else (i + 1)%Z
  end.

Definition priority : list string := ["index"; "main"; "app"].

(** The comparator given to [files.sort]. *)
Definition compareFiles (a b : SourceFile.t) : Z :=
  let aName := toLowerCase (SourceFile.path a) in
  let bName := toLowerCase (SourceFile.path b) in
  let aPriority := findIndex (fun p => includes p aName) priority in
  let bPriority := findIndex (fun p => includes p bName) priority in
  if negb (aPriority =? -1)%Z && negb (bPriority =? -1)%Z then (aPriority - bPriority)%Z
  else if negb (aPriority =? -1)%Z then (-1)%Z
  else if negb (bPriority =? -1)%Z then 1%Z
  else 0%Z.

(** [Array.prototype.sort] with a comparator.  The language fixes the
    result for a consistent comparator: sorted, and stable.  Insertion from
    the right is one such sort: an element goes in front of the first
    element it does not sort after. *)
Section Sort.
Context {A : Type} (compare : A -> A -> Z).

Fixpoint insert_sorted (x : A) (l : list A) : list A :=
  match l with
  | [] => [x]
  | y :: rest =>
      if (compare x y <=? 0)%Z then x :: y :: rest
      else y :: insert_sorted x rest
  end.

Fixpoint sort (l : list A) : list A :=
  match l with
  | [] => []
  | x :: rest => insert_sorted x (sort rest)
  end.
End Sort.

(** ** The GitHub helpers, the selector and the generator *)

Section Code.
Context (env : Env).

Definition axios_get_repo (owner repo : string) : Net.t (AxiosResponse RepoData) :=
  (settle (github_repos env owner repo), [GetRepo owner repo]).

Definition axios_get_contents (owner repo path : string)
  : Net.t (AxiosResponse ContentsData) :=
  (settle (github_contents env owner repo path), [GetContents owner repo path]).

Definition axios_post_chat (body : ChatRequest) : Net.t (AxiosResponse JsValue) :=
  (settle (openai_chat_completions env body), [PostChatCompletions body]).

Definition getRepositoryContents (owner repo path : string) : Net.t ContentsData :=
  Net.try_catch
    (let* response := axios_get_contents owner repo path in
     Net.ret (data response))
    (fun e => Net.throw e).

(** [atob(response.data.content)]: an array has no [content], and
    [atob(undefined)] decodes the text [undefined]. *)
Definition getFileContent (owner repo path : string) : Net.t string :=
  Net.try_catch
    (let* response := axios_get_contents owner repo path in
     let base64 :=
       match data response with
       | Envelope b => b
       | Listing _ => "undefined"
       end in
     match atob env base64 with
     | Some text => Net.ret text
     | None => Net.throw (DOMException "The string to be decoded is not correctly encoded.")
     end)
    (fun e => Net.throw e).

Definition getRepositoryStructure (owner repo : string) : Net.t RepositoryStructure :=
  Net.try_catch
    (let* repoResponse := axios_get_repo owner repo in
     let* packageJson :=
       Net.try_catch
         (let* packageResponse := getFileContent owner repo "package.json" in
          match JSON_parse env packageResponse with
          | Some v => Net.ret v
          | None => Net.throw (SyntaxError "Unexpected token in JSON")
          end)
         (fun _ => Net.ret JNull) in
     let* readme :=
       Net.try_catch
         (let* text := getFileContent owner repo "README.md" in Net.ret (Some text))
         (fun _ => Net.ret None) in
     Net.ret {| description := repo_description (data repoResponse);
                packageJson := packageJson;
                readme := readme |})
    (fun e => Net.throw e).

(** The test of lines 214 to 220 on [item.name]. *)
Definition admitted (name : string) : bool :=
  (endsWith ".js" name || endsWith ".ts" name || endsWith ".jsx" name || endsWith ".tsx" name)
  && negb (includes ".test." name)
  && negb (includes ".spec." name)
  && negb (includes ".config." name).

(** One turn of the loop of [getFilesFromDirectory]; [recurse] is the
    function itself, called on the listing of a subdirectory. *)
Definition visit (owner repo : string)
    (recurse : ContentsData -> Net.t (list SourceFile.t))
    (item : Item.t) (files : list SourceFile.t) : Net.t (list SourceFile.t) :=
  if String.eqb (Item.type item) "file" then
    if admitted (Item.name item) then
      Net.try_catch
        (let* content := getFileContent owner repo (Item.path item) in
         Net.ret (files ++ [ {| SourceFile.path := Item.path item;
                                SourceFile.content := content |} ]))
        (fun _ => Net.ret files)
    else Net.ret files
  else if String.eqb (Item.type item) "dir" then
    Net.try_catch
      (let* dirContents := getRepositoryContents owner repo (Item.path item) in
       let* dirFiles := recurse dirContents in
       Net.ret (files ++ dirFiles))
      (fun _ => Net.ret files)
  else Net.ret files.

(** The inner function of [getMainSourceFiles], without its second
    parameter [currentPath], which it never reads.  [contents] is a
    response body: iterating over one that is not an array throws.  [fuel]
    bounds the depth of the recursion. *)
Fixpoint getFilesFromDirectory (fuel : nat) (owner repo : string)
    (contents : ContentsData) : Net.t (list SourceFile.t) :=
  match fuel with
  | O => Net.out_of_fuel
  | S fuel' =>
      match contents with
      | Listing items =>
          Net.for_of items (visit owner repo (getFilesFromDirectory fuel' owner repo)) []
      | Envelope _ => Net.throw (TypeError "contents is not iterable")
      end
  end.

Definition getMainSourceFiles (fuel : nat) (owner repo : string)
  : Net.t (list SourceFile.t) :=
  Net.try_catch
    (let allFiles : list SourceFile.t := [] in
     let* srcContents :=
       Net.try_catch
         (let* c := getRepositoryContents owner repo "src" in Net.ret (Some c))
         (fun _ => Net.ret None) in
     match srcContents with
     | None => Net.ret allFiles
     | Some srcContents =>
         let* files := getFilesFromDirectory fuel owner repo srcContents in
         let files := sort compareFiles files in
         Net.ret (allFiles ++ firstn 5 files)
     end)
    (fun e => Net.throw e).

End Code.

(** ** The prompt *)

Module Prompt.

Definition system_content : string :=
  "You are a technical documentation expert. Generate comprehensive documentation in a clear, well-structured README format. Include detailed code examples, API references, and changelog where relevant.".

(** The closing part of the template literal, from line 319 on. *)
Definition instructions : string :=
"Please provide a comprehensive README.md including:
1. Project Title and Description
2. Features
3. Technologies Used
4. Installation Guide
5. Usage Instructions
6. API Reference
   - Detailed list of all functions/methods
   - Parameters and return values
   - Example usage for each endpoint/function
7. Architecture Overview
8. Contributing Guidelines
9. Changelog
   - Version history
   - Notable changes
   - Breaking changes
10. License Information

For the API Reference and Changelog sections, please structure them as collapsible sections using markdown:

<details>
<summary>API Reference</summary>

[API documentation content here]

</details>

<details>
<summary>Changelog</summary>

[Changelog content here]

</details>

Format the response as a proper README.md file with appropriate markdown syntax.".

(** [repoStructure.description || 'No description provided'] *)
Definition description_line (d : option string) : string :=
  match d with
  | Some s => if truthy s then s else "No description provided"
  | None => "No description provided"
  end.

(** [repoStructure.readme ? '\nFrom README:\n' + repoStructure.readme : ''] *)
Definition readme_part (r : option string) : string :=
  match r with
  | Some s => if truthy s then nl +:+ "From README:" +:+ nl +:+ s else ""
  | None => ""
  end.

Section Dependencies.
Context (env : Env).

(** [JSON.stringify(v, null, 2)] in a concatenation: [undefined] has no
    JSON text and is appended as the word. *)
Definition stringify (v : JsValue) : string :=
  match v with
  | JUndefined => "undefined"
  | _ => JSON_stringify env v
  end.

(** [repoStructure.packageJson
      ? '\nDependencies:\n' + JSON.stringify(repoStructure.packageJson.dependencies, null, 2)
      : ''] *)
Definition dependencies_part (packageJson : JsValue) : string :=
  if truthy_value packageJson then
    nl +:+ "Dependencies:" +:+ nl +:+
    stringify (match get_prop packageJson "dependencies" with
               | inr v => v
               | inl _ => JUndefined
               end)
  else "".

(** [sourceFiles.map(file => `\n--- ${file.path} ---\n${file.content}`).join('\n')] *)
Definition file_block (file : SourceFile.t) : string :=
  nl +:+ "--- " +:+ SourceFile.path file +:+ " ---" +:+ nl +:+ SourceFile.content file.

Definition source_files_part (sourceFiles : list SourceFile.t) : string :=
  String.concat nl (map file_block sourceFiles).

(** The content of the user message, lines 309 to 353. *)
Definition user_content (repoInfo : RepositoryIdentity)
    (repoStructure : RepositoryStructure) (sourceFiles : list SourceFile.t) : string :=
  "Generate a README.md documentation for the project "
    +:+ owner repoInfo +:+ "/" +:+ repo repoInfo +:+ nl
  +:+ nl
  +:+ "Project Context:" +:+ nl
  +:+ description_line (description repoStructure) +:+ nl
  +:+ readme_part (readme repoStructure) +:+ nl
  +:+ dependencies_part (packageJson repoStructure) +:+ nl
  +:+ nl
  +:+ "Source Files:" +:+ nl
  +:+ source_files_part sourceFiles +:+ nl
  +:+ nl
  +:+ instructions.

(** The body of the request, lines 302 to 357. *)
Definition chat_request (repoInfo : RepositoryIdentity)
    (repoStructure : RepositoryStructure) (sourceFiles : list SourceFile.t) : ChatRequest :=
  {| model := "gpt-4-turbo-preview";
     messages :=
       [ {| role := "system"; content := system_content |};
         {| role := "user"; content := user_content repoInfo repoStructure sourceFiles |} ];
     temperature := (7, 10)%Z;
     max_tokens := 4000%Z |}.
End Dependencies.

End Prompt.

(** ** The generator and the two handlers *)

Section Handlers.
Context (env : Env).

(** [response.data.choices[0].message.content] *)
Definition first_choice_content (data : JsValue) : JsError + JsValue :=
  match get_prop data "choices" with
  | inl e => inl e
  | inr choices =>
      match get_first choices with
      | inl e => inl e
      | inr choice =>
          match get_prop choice "message" with
          | inl e => inl e
          | inr msg => get_prop msg "content"
          end
      end
  end.

(** Lines 295 to 361 of [generateDocumentation]: from the structure and
    the selected files to the text of the first choice. *)
Definition generate (repoInfo : RepositoryIdentity)
    (repoStructure : RepositoryStructure) (sourceFiles : list SourceFile.t)
  : Net.t JsValue :=
  if (length sourceFiles =? 0)%nat then
    Net.throw (Error "No source files found. Please ensure the repository contains JavaScript/TypeScript files.")
  else
    let* response :=
      axios_post_chat env (Prompt.chat_request env repoInfo repoStructure sourceFiles) in
    match first_choice_content (data response) with
    | inl e => Net.throw e
    | inr documentation => Net.ret documentation
    end.

Definition showStatusCard (msg : string) (type : StatusType) : M.t unit :=
  M.modify (Page.set_statusCard (Some (msg, type))).

(** [localStorage.setItem('currentRepo', JSON.stringify({ owner, repo }))] *)
Definition setItem (key : string) (value : RepositoryIdentity) : M.t unit :=
  M.modify (fun p => Page.set_localStorage (<[key := value]> (localStorage p)) p).

(** [JSON.parse(localStorage.getItem(key))] *)
Definition getItem (key : string) : M.t (option RepositoryIdentity) :=
  M.read (fun p => localStorage p !! key).

(** The [try] block of [connectRepository]. *)
Definition connectRepository_try : M.t unit :=
  M.modify (Page.set_repoUrlInput_disabled true) ;;
  M.modify (Page.set_connectRepoBtn_disabled true) ;;
  (if negb (configured (VITE_GITHUB_TOKEN env))
   then M.throw (Error "GitHub token is not configured") else M.ret tt) ;;
  let! repoUrl := M.read repoUrlInput_value in
  match extract_identity repoUrl with
  | inl e => M.throw e
  | inr id =>
      let! response := M.await (axios_get_repo env (owner id) (repo id)) in
      if (status response =? 200)%Z then
        setItem "currentRepo" id ;;
        M.modify (Page.set_generateDocBtn_disabled false) ;;
        showStatusCard "Repository connected successfully!" success
      else M.ret tt
  end.

(** Its [catch] block. *)
Definition connectRepository_catch (e : JsError) : M.t unit :=
  let errorMessage :=
    "Error connecting to repository. " +:+
    match response_status e with
    | Some 401%Z => "Invalid or missing GitHub token. Please check your configuration."
    | Some 404%Z => "Repository not found or private."
    | _ => if truthy (message e) then message e
           else "Please check the URL and try again."
    end in
  showStatusCard errorMessage error ;;
  M.modify (Page.set_connectRepoBtn_disabled false) ;;
  M.modify (Page.set_repoUrlInput_disabled false).

Definition connectRepository : M.t unit :=
  M.try_catch connectRepository_try connectRepository_catch.

(** The message of the error [marked] throws for an input that is not a
    string: what is wrong with the input, and on a second line where to
    report it. *)
Definition marked_error (v : JsValue) : string :=
  match v with
  | JUndefined | JNull => "marked(): input parameter is undefined or null"
  | JBool _ => "marked(): input parameter is of type [object Boolean], string expected"
  | JNumber _ => "marked(): input parameter is of type [object Number], string expected"
  | JArray _ => "marked(): input parameter is of type [object Array], string expected"
  | _ => "marked(): input parameter is of type [object Object], string expected"
  end
  +:+ nl +:+ "Please report this to https://github.com/markedjs/marked.".

(** What follows line 361 needs a text: the template of line 363 calls
    [marked(documentation)], which throws on anything else, before the
    preview is assigned. *)
Definition render (documentation : JsValue) : M.t unit :=
  match documentation with
  | JString text => M.modify (Page.set_preview (Some text))
  | _ => M.throw (Error (marked_error documentation))
  end.

(** The [try] block of [generateDocumentation]. *)
Definition generateDocumentation_try (fuel : nat) : M.t unit :=
  (if negb (configured (VITE_OPENAI_API_KEY env))
   then M.throw (Error "OpenAI API key is not configured") else M.ret tt) ;;
  let! repoInfo := getItem "currentRepo" in
  match repoInfo with
  | None => M.throw (Error "Please connect a repository first")
  | Some repoInfo =>
      let! repoStructure :=
        M.await (getRepositoryStructure env (owner repoInfo) (repo repoInfo)) in
      let! sourceFiles :=
        M.await (getMainSourceFiles env fuel (owner repoInfo) (repo repoInfo)) in
      let! documentation := M.await (generate repoInfo repoStructure sourceFiles) in
      render documentation ;;
      showStatusCard "Documentation generated successfully!" success ;;
      M.modify (Page.set_generateDocBtn_disabled false) ;;
      M.modify (Page.set_connectRepoBtn_disabled false) ;;
      M.modify (Page.set_repoUrlInput_disabled false)
  end.

(** Its [catch] block. *)
Definition generateDocumentation_catch (e : JsError) : M.t unit :=
  M.modify (Page.set_generateDocBtn_disabled false) ;;
  showStatusCard
    (if truthy (message e) then message e
     else "Error generating documentation. Please try again.") error.

Definition generateDocumentation (fuel : nat) : M.t unit :=
  M.modify (Page.set_generateDocBtn_disabled true) ;;
  M.modify (Page.set_loadingIndicator_hidden false) ;;
  M.finally
    (M.try_catch (generateDocumentation_try fuel) generateDocumentation_catch)
    (Page.set_loadingIndicator_hidden true).

End Handlers.

(** ** The start of the page and the raw view *)

Definition set_repoUrlInput_value (v : string) (p : Page) : Page :=
  {| repoUrlInput_value := v;
     repoUrlInput_disabled := repoUrlInput_disabled p;
     connectRepoBtn_disabled := connectRepoBtn_disabled p;
     generateDocBtn_disabled := generateDocBtn_disabled p;
     loadingIndicator_hidden := loadingIndicator_hidden p;
     statusCard := statusCard p;
     preview := preview p;
     localStorage := localStorage p;
     requests := requests p |}.

(** The URL written to the input for a saved identity, line 453. *)
Definition saved_url (id : RepositoryIdentity) : string :=
  "https://github.com/" +:+ owner id +:+ "/" +:+ repo id.

(** Lines 446 to 463, run once when the script loads: the generate button
    starts disabled, and a saved identity fills the input and enables it. *)
Definition initialize (p : Page) : Page :=
  let p := Page.set_generateDocBtn_disabled true p in
  match localStorage p !! "currentRepo" with
  | Some id =>
      Page.set_generateDocBtn_disabled false (set_repoUrlInput_value (saved_url id) p)
  | None => p
  end.

(** [s.replace(/c/g, by)] for a character [c]. *)
Fixpoint replaceAll (c : ascii) (by_ : string) (s : string) : string :=
  match s with
  | EmptyString => EmptyString
  | String d s' =>
      if Ascii.eqb d c then by_ +:+ replaceAll c by_ s'
      else String d (replaceAll c by_ s')
  end.

(** The text of the raw view, line 376:
    [documentation.replace(/</g, '&lt;').replace(/>/g, '&gt;')]. *)
Definition escapeRaw (documentation : string) : string :=
  replaceAll ">" "&gt;" (replaceAll "<" "&lt;" documentation).

(** ** The two views of the preview *)









(** * The vocabulary of the statements *)

(** ** Order *)

(** The index in [priority] of the first fragment the lowercased path
    contains, [-1] when it contains none. *)
Definition priorityIndex (f : SourceFile.t) : Z :=
  findIndex (fun p => includes p (toLowerCase (SourceFile.path f))) priority.

(** [a] may stand before [b]: [b] matches no fragment, or both match and
    the fragment of [a] is not a later one. *)
Definition may_precede (a b : SourceFile.t) : Prop :=
  priorityIndex b = (-1)%Z \/
  (priorityIndex a <> (-1)%Z /\ (priorityIndex a <= priorityIndex b)%Z).

(** The files of one class, in the order of the list. *)
Definition of_class (k : Z) (l : list SourceFile.t) : list SourceFile.t :=
  List.filter (fun f => (priorityIndex f =? k)%Z) l.

(** ** The walk *)

(** The subtree under [contents] is at most [n] directories deep: no
    directory listed [n] levels further down can itself be listed. *)
Fixpoint within_depth (env : Env) (owner repo : string) (n : nat)
    (contents : ContentsData) : bool :=
  match contents with
  | Envelope _ => true
  | Listing items =>
      forallb
        (fun item =>
           if String.eqb (Item.type item) "dir" then
             match Net.outcome (getRepositoryContents env owner repo (Item.path item)) with
             | Val sub =>
                 match n with
                 | O => false
                 | S n' => within_depth env owner repo n' sub
                 end
             | _ => true
             end
           else true)
        items
  end.

(** The subtree under [src] is at most [n] directories deep. *)
Definition selector_within_depth (env : Env) (owner repo : string) (n : nat) : bool :=
  match Net.outcome (getRepositoryContents env owner repo "src") with
  | Val srcContents => within_depth env owner repo n srcContents
  | _ => true
  end.

(** An entry on which the walk fails: a file whose body cannot be
    fetched, a directory that cannot be listed, or a directory under which
    the walk throws. *)
Definition fails_on (env : Env) (owner repo : string) (fuel : nat) (item : Item.t) : Prop :=
  (Item.type item = "file"
   /\ exists e, Net.outcome (getFileContent env owner repo (Item.path item)) = Exn e)
  \/ (Item.type item = "dir"
      /\ exists e, Net.outcome (getRepositoryContents env owner repo (Item.path item)) = Exn e)
  \/ (Item.type item = "dir"
      /\ exists sub e,
          Net.outcome (getRepositoryContents env owner repo (Item.path item)) = Val sub
          /\ Net.outcome (getFilesFromDirectory env fuel owner repo sub) = Exn e).

(** ** The input *)

(** A path segment: not empty, no slash. *)
Definition is_segment (s : string) : bool := truthy s && negb (includes "/" s).

(** What the pattern looks for: the text [github.com/<owner>/<repo>]
    somewhere in [s], after the text [pre] and before the text [rest], which
    is empty or goes on with a slash. *)
Definition url_shape (s pre owner repo rest : string) : Prop :=
  s = pre +:+ "github.com/" +:+ owner +:+ "/" +:+ repo +:+ rest
  /\ is_segment owner = true
  /\ is_segment repo = true
  /\ (rest = "" \/ exists more, rest = "/" +:+ more).

(** The shape in the specification's words: a URL of a host whose first
    two path segments are [<owner>] and [<repo>], followed by nothing or by
    further path segments; the host may stand after a scheme. *)
Definition claimed_shape (host s owner repo : string) : Prop :=
  exists scheme rest,
    s = scheme +:+ host +:+ "/" +:+ owner +:+ "/" +:+ repo +:+ rest
    /\ (scheme = "" \/ scheme = "http://" \/ scheme = "https://")
    /\ is_segment host = true
    /\ is_segment owner = true
    /\ is_segment repo = true
    /\ (rest = "" \/ exists more, rest = "/" +:+ more).

(** No occurrence of the shape starts before [pre]. *)
Definition leftmost (s pre : string) : Prop :=
  forall pre' o' r' rest',
    url_shape s pre' o' r' rest' -> String.length pre <= String.length pre'.

(** ** The requests of a run *)

(** The requests of the [try] block of [generateDocumentation], as one
    computation of the network layer. *)
Definition pipeline (env : Env) (fuel : nat) (repoInfo : RepositoryIdentity) : Net.t JsValue :=
  let* repoStructure := getRepositoryStructure env (owner repoInfo) (repo repoInfo) in
  let* sourceFiles := getMainSourceFiles env fuel (owner repoInfo) (repo repoInfo) in
  generate env repoInfo repoStructure sourceFiles.

(** A request to the contents and repository API, not to the completion
    endpoint. *)
Definition is_github (r : Request) : bool :=
  match r with
  | GetRepo _ _ | GetContents _ _ _ => true
  | PostChatCompletions _ => false
  end.

Definition only_github {A} (m : Net.t A) : Prop :=
  List.Forall (fun r => is_github r = true) (Net.issued m).

Definition no_source_files : JsError :=
  Error "No source files found. Please ensure the repository contains JavaScript/TypeScript files.".

(** The body of a completion response has no first choice: [choices]
    cannot be read, is [undefined], or is the empty array. *)
Definition no_choice (data : JsValue) : bool :=
  match get_prop data "choices" with
  | inl _ => true
  | inr JUndefined => true
  | inr (JArray []) => true
  | inr _ => false
  end.

(** ** Further vocabulary *)



(** The file carries the body that the contents API gives for its path. *)
Definition fetched (env : Env) (owner repo : string) (f : SourceFile.t) : Prop :=
  Net.outcome (getFileContent env owner repo (SourceFile.path f))
  = Val (SourceFile.content f).

(** The requests of a run that are not to the GitHub API. *)
Definition completion_requests (log : list Request) : list Request :=
  List.filter (fun r => negb (is_github r)) log.

(** The error of the first of the three awaits of the [try] block that
    throws. *)
Definition stage_throws (env : Env) (fuel : nat) (repoInfo : RepositoryIdentity)
    (e : JsError) : Prop :=
  Net.outcome (getRepositoryStructure env (owner repoInfo) (repo repoInfo)) = Exn e
  \/ (exists repoStructure,
         Net.outcome (getRepositoryStructure env (owner repoInfo) (repo repoInfo))
         = Val repoStructure
         /\ (Net.outcome (getMainSourceFiles env fuel (owner repoInfo) (repo repoInfo))
             = Exn e
             \/ exists sourceFiles,
                 Net.outcome (getMainSourceFiles env fuel (owner repoInfo) (repo repoInfo))
                 = Val sourceFiles
                 /\ Net.outcome (generate env repoInfo repoStructure sourceFiles) = Exn e)).

(** An entry the loop does nothing with: neither a file nor a directory,
    or a file whose name is not admitted. *)
Definition passed_over (item : Item.t) : Prop :=
  (String.eqb (Item.type item) "file" = false
   /\ String.eqb (Item.type item) "dir" = false)
  \/ (String.eqb (Item.type item) "file" = true /\ admitted (Item.name item) = false).

(** Every request issued satisfies [P]. *)
Definition all_issued {A} (P : Request -> Prop) (m : Net.t A) : Prop :=
  List.Forall P (Net.issued m).

(** A request for the contents of a path of the given repository. *)
Definition contents_of (owner repo : string) (r : Request) : Prop :=
  exists path, r = GetContents owner repo path.

(** ** Test repositories *)

Module Fixture.

Definition file (dir name : string) : Item.t :=
  {| Item.name := name; Item.path := dir +:+ "/" +:+ name; Item.type := "file" |}.

Definition dir (parent name : string) : Item.t :=
  {| Item.name := name; Item.path := parent +:+ "/" +:+ name; Item.type := "dir" |}.

Fixpoint lookup {A} (path : string) (tree : list (string * A)) : option A :=
  match tree with
  | [] => None
  | (p, r) :: rest => if String.eqb path p then Some r else lookup path rest
  end.

(** An environment that answers the contents API from a table of paths
    (404 for a path that is not in it), with both credentials set.  The
    stand-in for [atob] gives the text back unchanged. *)
Definition env_of (repos : HttpReply RepoData)
    (tree : list (string * HttpReply ContentsData))
    (chat : HttpReply JsValue) : Env :=
  {| VITE_GITHUB_TOKEN := Some "github-token";
     VITE_OPENAI_API_KEY := Some "openai-key";
     github_repos := fun _ _ => repos;
     github_contents := fun _ _ path =>
       match lookup path tree with
       | Some r => r
       | None => Response 404%Z (Envelope "")
       end;
     openai_chat_completions := fun _ => chat;
     atob := fun s => Some s;
     JSON_parse := fun _ => None;
     JSON_stringify := fun _ => "{}" |}.

Definition body (text : string) : HttpReply ContentsData :=
  Response 200%Z (Envelope text).

Definition found : HttpReply RepoData :=
  Response 200%Z {| repo_description := Some "A sample repository" |}.

Definition not_found : HttpReply RepoData :=
  Response 404%Z {| repo_description := None |}.

(** A completion with one choice. *)
Definition completion (text : string) : HttpReply JsValue :=
  Response 200%Z
    (JObject [("choices",
               JArray [JObject [("message", JObject [("content", JString text)])]])]).

(** The six files of the specification's example, directly under [src]. *)
Definition six_files : Env :=
  env_of found
    [ ("src", Response 200%Z (Listing
         [ file "src" "utils.js"; file "src" "index.js"; file "src" "app.jsx";
           file "src" "main.ts"; file "src" "x.test.js"; file "src" "y.config.js" ]));
      ("src/utils.js", body "utils");
      ("src/index.js", body "index");
      ("src/app.jsx", body "app");
      ("src/main.ts", body "main");
      ("src/x.test.js", body "test");
      ("src/y.config.js", body "config") ]
    (completion "# Sample").

(** Seven eligible files on two levels, a file whose body cannot be
    fetched, a directory that cannot be listed, and a README. *)
Definition two_levels_tree : list (string * HttpReply ContentsData) :=
    [ ("README.md", body "Hello from the README");
      ("src", Response 200%Z (Listing
         [ file "src" "a.js"; file "src" "gone.js"; dir "src" "components";
           dir "src" "locked"; file "src" "b.ts"; file "src" "index.js";
           file "src" "notes.md"; file "src" "c.tsx" ]));
      ("src/a.js", body "a");
      ("src/gone.js", Response 404%Z (Envelope ""));
      ("src/components", Response 200%Z (Listing
         [ file "src/components" "App.jsx"; file "src/components" "Button.jsx";
           file "src/components" "Button.spec.jsx" ]));
      ("src/locked", Response 403%Z (Envelope ""));
      ("src/b.ts", body "b");
      ("src/index.js", body "index");
      ("src/c.tsx", body "c");
      ("src/components/App.jsx", body "App");
      ("src/components/Button.jsx", body "Button") ].

Definition two_levels : Env := env_of found two_levels_tree (completion "# Sample").

(** The same repository, with a completion endpoint that answers 200
    and an empty array of choices. *)
Definition no_choices : Env :=
  env_of found two_levels_tree (Response 200%Z (JObject [("choices", JArray [])])).

Definition two_levels_structure : RepositoryStructure :=
  {| description := Some "A sample repository";
     packageJson := JNull;
     readme := Some "Hello from the README" |}.

(** A repository without a [src] directory. *)
Definition no_src : Env := env_of found [] (completion "# Sample").

(** A repository that does not exist. *)
Definition missing : Env := env_of not_found [] (completion "# Sample").

Definition source (path content : string) : SourceFile.t :=
  {| SourceFile.path := path; SourceFile.content := content |}.

Definition two_levels_selected : list SourceFile.t :=
  [ source "src/index.js" "index"; source "src/components/App.jsx" "App";
    source "src/a.js" "a"; source "src/components/Button.jsx" "Button";
    source "src/b.ts" "b" ].

Definition page (url : string) (stored : gmap string RepositoryIdentity) : Page :=
  {| repoUrlInput_value := url;
     repoUrlInput_disabled := false;
     connectRepoBtn_disabled := false;
     generateDocBtn_disabled := true;
     loadingIndicator_hidden := true;
     statusCard := None;
     preview := None;
     localStorage := stored;
     requests := [] |}.

End Fixture.

(** * Properties *)

(** ** Strings *)

Lemma append_cons (x : ascii) (a b : string) : String x a +:+ b = String x (a +:+ b).
Proof. reflexivity. Qed.

Lemma append_assoc (a b c : string) : (a +:+ b) +:+ c = a +:+ (b +:+ c).
Proof.
  induction a as [|x a IH]; [reflexivity|].
  now rewrite !append_cons, IH.
Qed.

Lemma append_empty_r (a : string) : a +:+ "" = a.
Proof.
  induction a as [|x a IH]; [reflexivity|].
  now rewrite append_cons, IH.
Qed.

Lemma Substring_refl (s : string) : Substring s s.
Proof. exists "", "". now rewrite append_empty_r. Qed.

Lemma Substring_append_l (r a b : string) : Substring r b -> Substring r (a +:+ b).
Proof.
  intros (pre & post & ->). exists (a +:+ pre), post. now rewrite append_assoc.
Qed.

Lemma Substring_append_r (r a b : string) : Substring r a -> Substring r (a +:+ b).
Proof.
  intros (pre & post & ->). exists pre, (post +:+ b). now rewrite !append_assoc.
Qed.

Lemma Substring_empty (s : string) : Substring "" s.
Proof. exists "", s. reflexivity. Qed.

(** ** The order of the selected files *)

Lemma priorityIndex_range (f : SourceFile.t) :
  priorityIndex f = (-1)%Z \/ (0 <= priorityIndex f < 3)%Z.
Proof.
  unfold priorityIndex, priority. simpl.
  repeat match goal with |- context [if ?c then _ else _] => destruct c; simpl end; lia.
Qed.

Lemma compareFiles_le (a b : SourceFile.t) :
  (compareFiles a b <=? 0)%Z = true <-> may_precede a b.
Proof.
  unfold compareFiles, may_precede. fold (priorityIndex a) (priorityIndex b).
  destruct (priorityIndex_range a) as [Ha|Ha], (priorityIndex_range b) as [Hb|Hb].
  - rewrite Ha, Hb. simpl. intuition.
  - rewrite Ha. simpl. destruct (priorityIndex b =? -1)%Z eqn:E; simpl.
    + apply Z.eqb_eq in E. lia.
    + split; [discriminate | lia].
  - rewrite Hb. simpl. destruct (priorityIndex a =? -1)%Z eqn:E; simpl.
    + apply Z.eqb_eq in E. lia.
    + intuition.
  - destruct (priorityIndex a =? -1)%Z eqn:Ea; [apply Z.eqb_eq in Ea; lia|].
    destruct (priorityIndex b =? -1)%Z eqn:Eb; [apply Z.eqb_eq in Eb; lia|].
    simpl. rewrite Z.leb_le. apply Z.eqb_neq in Ea. lia.
Qed.

Lemma may_precede_total (a b : SourceFile.t) : may_precede a b \/ may_precede b a.
Proof.
  unfold may_precede.
  destruct (priorityIndex_range a), (priorityIndex_range b); lia.
Qed.

Lemma may_precede_trans (a b c : SourceFile.t) :
  may_precede a b -> may_precede b c -> may_precede a c.
Proof. unfold may_precede. lia. Qed.

(** A file that is put after [y] by the comparator is in another class
    than [y]. *)
Lemma compareFiles_gt_class (x y : SourceFile.t) :
  (compareFiles x y <=? 0)%Z = false -> priorityIndex y <> priorityIndex x.
Proof.
  intros H E.
  assert (may_precede x y) as Hp.
  { unfold may_precede. rewrite E. destruct (priorityIndex_range x); lia. }
  apply compareFiles_le in Hp. congruence.
Qed.

Section SortFacts.

Lemma insert_sorted_Permutation (x : SourceFile.t) (l : list SourceFile.t) :
  Permutation (x :: l) (insert_sorted compareFiles x l).
Proof.
  induction l as [|y l IH]; simpl; [reflexivity|].
  destruct (compareFiles x y <=? 0)%Z; [reflexivity|].
  rewrite perm_swap. now constructor.
Qed.

Lemma sort_Permutation (l : list SourceFile.t) :
  Permutation l (sort compareFiles l).
Proof.
  induction l as [|x l IH]; simpl; [reflexivity|].
  rewrite <- insert_sorted_Permutation. now constructor.
Qed.

Lemma insert_sorted_StronglySorted (x : SourceFile.t) (l : list SourceFile.t) :
  StronglySorted may_precede l ->
  StronglySorted may_precede (insert_sorted compareFiles x l).
Proof.
  induction 1 as [|y l Hl IH Hy]; simpl.
  - repeat constructor.
  - destruct (compareFiles x y <=? 0)%Z eqn:E.
    + apply compareFiles_le in E.
      constructor; [now constructor|].
      constructor; [assumption|].
      eapply List.Forall_impl; [|exact Hy]. intros z Hz. eapply may_precede_trans; eauto.
    + constructor; [assumption|].
      assert (may_precede y x) as Hyx.
      { destruct (may_precede_total x y) as [Hxy|]; [|assumption].
        apply compareFiles_le in Hxy. congruence. }
      rewrite <- insert_sorted_Permutation. now constructor.
Qed.

Lemma sort_StronglySorted (l : list SourceFile.t) :
  StronglySorted may_precede (sort compareFiles l).
Proof.
  induction l as [|x l IH]; simpl; [constructor|].
  now apply insert_sorted_StronglySorted.
Qed.

Lemma insert_sorted_of_class (k : Z) (x : SourceFile.t) (l : list SourceFile.t) :
  of_class k (insert_sorted compareFiles x l) = of_class k (x :: l).
Proof.
  induction l as [|y l IH]; [reflexivity|].
  simpl insert_sorted. destruct (compareFiles x y <=? 0)%Z eqn:E; [reflexivity|].
  apply compareFiles_gt_class in E.
  unfold of_class in *. simpl in *. rewrite IH.
  destruct (priorityIndex y =? k)%Z eqn:Ey, (priorityIndex x =? k)%Z eqn:Ex;
    try reflexivity.
  apply Z.eqb_eq in Ey, Ex. congruence.
Qed.

Lemma sort_of_class (k : Z) (l : list SourceFile.t) :
  of_class k (sort compareFiles l) = of_class k l.
Proof.
  induction l as [|x l IH]; [reflexivity|].
  simpl sort. rewrite insert_sorted_of_class.
  unfold of_class in *. simpl. now rewrite IH.
Qed.

End SortFacts.

(** ** Outcomes of the network helpers *)

Lemma outcome_bind {A B} (m : Net.t A) (k : A -> Net.t B) :
  Net.outcome (Net.bind m k) =
  match Net.outcome m with
  | Val a => Net.outcome (k a)
  | Exn e => Exn e
  | OutOfFuel => OutOfFuel
  end.
Proof.
  destruct m as [[a|e|] log]; simpl; try reflexivity.
  now destruct (k a).
Qed.

Lemma issued_bind {A B} (m : Net.t A) (k : A -> Net.t B) :
  Net.issued (Net.bind m k) =
  match Net.outcome m with
  | Val a => Net.issued m ++ Net.issued (k a)
  | _ => Net.issued m
  end.
Proof.
  destruct m as [[a|e|] log]; simpl; try reflexivity.
  now destruct (k a).
Qed.

Lemma outcome_try_catch {A} (m : Net.t A) (h : JsError -> Net.t A) :
  Net.outcome (Net.try_catch m h) =
  match Net.outcome m with
  | Exn e => Net.outcome (h e)
  | o => o
  end.
Proof.
  destruct m as [[a|e|] log]; simpl; try reflexivity.
  now destruct (h e).
Qed.

Lemma issued_try_catch {A} (m : Net.t A) (h : JsError -> Net.t A) :
  Net.issued (Net.try_catch m h) =
  match Net.outcome m with
  | Exn e => Net.issued m ++ Net.issued (h e)
  | _ => Net.issued m
  end.
Proof.
  destruct m as [[a|e|] log]; simpl; try reflexivity.
  now destruct (h e).
Qed.

Lemma issued_bind_prefix {A B} (m : Net.t A) (k : A -> Net.t B) :
  exists rest, Net.issued (Net.bind m k) = Net.issued m ++ rest.
Proof.
  rewrite issued_bind. destruct (Net.outcome m); eauto using app_nil_r.
Qed.

Lemma issued_try_catch_prefix {A} (m : Net.t A) (h : JsError -> Net.t A) :
  exists rest, Net.issued (Net.try_catch m h) = Net.issued m ++ rest.
Proof.
  rewrite issued_try_catch. destruct (Net.outcome m); eauto using app_nil_r.
Qed.

Lemma outcome_for_of_app {A B} (xs ys : list A) (body : A -> B -> Net.t B) (acc : B) :
  Net.outcome (Net.for_of (xs ++ ys) body acc) =
  match Net.outcome (Net.for_of xs body acc) with
  | Val acc' => Net.outcome (Net.for_of ys body acc')
  | Exn e => Exn e
  | OutOfFuel => OutOfFuel
  end.
Proof.
  revert acc. induction xs as [|x xs IH]; intros acc; [reflexivity|].
  simpl. rewrite !outcome_bind.
  destruct (Net.outcome (body x acc)); [apply IH | reflexivity | reflexivity].
Qed.

(** A loop whose turns all return, returns. *)
Lemma for_of_returns {A B} (xs : list A) (body : A -> B -> Net.t B) (acc : B) :
  (forall x acc', In x xs -> exists b, Net.outcome (body x acc') = Val b) ->
  exists b, Net.outcome (Net.for_of xs body acc) = Val b.
Proof.
  revert acc. induction xs as [|x xs IH]; intros acc H.
  - now exists acc.
  - simpl. rewrite outcome_bind.
    destruct (H x acc) as [b Hb]; [now left|]. rewrite Hb.
    apply IH. intros y acc' Hy. apply H. now right.
Qed.

(** A loop whose turns never throw, never throws. *)
Lemma for_of_no_throw {A B} (xs : list A) (body : A -> B -> Net.t B) (acc : B) :
  (forall x acc' e, Net.outcome (body x acc') <> Exn e) ->
  forall e, Net.outcome (Net.for_of xs body acc) <> Exn e.
Proof.
  intros H. revert acc. induction xs as [|x xs IH]; intros acc e.
  - discriminate.
  - simpl. rewrite outcome_bind.
    destruct (Net.outcome (body x acc)) eqn:E; [apply IH | | discriminate].
    now apply H in E.
Qed.

Section WalkFacts.
Context (env : Env) (owner repo : string).

Lemma outcome_getRepositoryContents (path : string) :
  Net.outcome (getRepositoryContents env owner repo path) =
  match settle (github_contents env owner repo path) with
  | Val response => Val (data response)
  | Exn e => Exn e
  | OutOfFuel => OutOfFuel
  end.
Proof.
  unfold getRepositoryContents, axios_get_contents.
  now destruct (settle (github_contents env owner repo path)).
Qed.

Lemma settle_ends {A} (r : HttpReply A) : settle r <> OutOfFuel.
Proof.
  destruct r as [|st d]; simpl; [discriminate|].
  destruct ((200 <=? st)%Z && (st <? 300)%Z); discriminate.
Qed.

Lemma getRepositoryContents_ends (path : string) :
  Net.outcome (getRepositoryContents env owner repo path) <> OutOfFuel.
Proof.
  rewrite outcome_getRepositoryContents.
  pose proof (settle_ends (github_contents env owner repo path)).
  destruct (settle (github_contents env owner repo path)); congruence.
Qed.

Lemma outcome_getFileContent (path : string) :
  Net.outcome (getFileContent env owner repo path) =
  match settle (github_contents env owner repo path) with
  | Val response =>
      match atob env (match data response with
                      | Envelope b => b
                      | Listing _ => "undefined"
                      end) with
      | Some text => Val text
      | None => Exn (DOMException "The string to be decoded is not correctly encoded.")
      end
  | Exn e => Exn e
  | OutOfFuel => OutOfFuel
  end.
Proof.
  unfold getFileContent, axios_get_contents.
  destruct (settle (github_contents env owner repo path)) as [response|e|];
    try reflexivity.
  simpl. now destruct (atob env _).
Qed.

Lemma getFileContent_ends (path : string) :
  Net.outcome (getFileContent env owner repo path) <> OutOfFuel.
Proof.
  rewrite outcome_getFileContent.
  pose proof (settle_ends (github_contents env owner repo path)).
  destruct (settle (github_contents env owner repo path)); try congruence.
  destruct (atob env _); discriminate.
Qed.

(** One turn of the loop never throws: each request of a turn is inside
    a [try]. *)
Lemma visit_no_throw recurse item files e :
  Net.outcome (visit env owner repo recurse item files) <> Exn e.
Proof.
  unfold visit.
  destruct (String.eqb (Item.type item) "file").
  - destruct (admitted (Item.name item)); [|discriminate].
    rewrite outcome_try_catch, outcome_bind.
    destruct (Net.outcome (getFileContent env owner repo (Item.path item)));
      discriminate.
  - destruct (String.eqb (Item.type item) "dir"); [|discriminate].
    rewrite outcome_try_catch, !outcome_bind.
    destruct (Net.outcome (getRepositoryContents env owner repo (Item.path item)));
      try discriminate.
    rewrite outcome_bind. destruct (Net.outcome (recurse a)); discriminate.
Qed.

(** The walk of a listing never throws. *)
Lemma getFilesFromDirectory_no_throw fuel items e :
  Net.outcome (getFilesFromDirectory env fuel owner repo (Listing items)) <> Exn e.
Proof.
  destruct fuel as [|fuel]; [discriminate|].
  simpl. apply for_of_no_throw. intros. apply visit_no_throw.
Qed.

Lemma getFilesFromDirectory_S fuel items :
  getFilesFromDirectory env (S fuel) owner repo (Listing items) =
  Net.for_of items (visit env owner repo (getFilesFromDirectory env fuel owner repo)) [].
Proof. reflexivity. Qed.

(** One turn of the loop returns as soon as the walk of the
    subdirectory it enters ends. *)
Lemma visit_returns recurse item files :
  (forall sub,
      String.eqb (Item.type item) "dir" = true ->
      Net.outcome (getRepositoryContents env owner repo (Item.path item)) = Val sub ->
      Net.outcome (recurse sub) <> OutOfFuel) ->
  exists files', Net.outcome (visit env owner repo recurse item files) = Val files'.
Proof.
  intros H. unfold visit.
  destruct (String.eqb (Item.type item) "file").
  - destruct (admitted (Item.name item)); [|now eexists].
    rewrite outcome_try_catch, outcome_bind.
    pose proof (getFileContent_ends (Item.path item)).
    destruct (Net.outcome (getFileContent env owner repo (Item.path item)));
      try congruence; now eexists.
  - destruct (String.eqb (Item.type item) "dir"); [|now eexists].
    rewrite outcome_try_catch, !outcome_bind.
    pose proof (getRepositoryContents_ends (Item.path item)).
    destruct (Net.outcome (getRepositoryContents env owner repo (Item.path item)))
      as [sub|e|]; [|now eexists|congruence].
    rewrite outcome_bind. specialize (H sub eq_refl eq_refl).
    destruct (Net.outcome (recurse sub)); try congruence; now eexists.
Qed.

(** With more fuel than the tree is deep, the walk ends: with the files
    for a listing, with the [TypeError] for a body that is not an array. *)
Lemma getFilesFromDirectory_ends n contents :
  within_depth env owner repo n contents = true ->
  Net.outcome (getFilesFromDirectory env (S n) owner repo contents) <> OutOfFuel.
Proof.
  revert contents. induction n as [|n IH]; intros [items|b] H; try discriminate;
    rewrite getFilesFromDirectory_S;
    match goal with
    | |- Net.outcome (Net.for_of ?xs ?body ?acc) <> _ =>
        destruct (for_of_returns xs body acc) as [files Hfiles];
        [|rewrite Hfiles; discriminate]
    end;
    intros item files Hin; apply visit_returns; intros sub Edir Hsub;
    simpl in H; rewrite forallb_forall in H; specialize (H item Hin);
    rewrite Edir, Hsub in H.
  - discriminate.
  - now apply IH.
Qed.

Lemma getFilesFromDirectory_returns n items :
  within_depth env owner repo n (Listing items) = true ->
  exists files,
    Net.outcome (getFilesFromDirectory env (S n) owner repo (Listing items)) = Val files.
Proof.
  intros H. apply getFilesFromDirectory_ends in H.
  destruct (Net.outcome (getFilesFromDirectory env (S n) owner repo (Listing items)))
    as [files|e|] eqn:E.
  - now exists files.
  - now apply getFilesFromDirectory_no_throw in E.
  - congruence.
Qed.

End WalkFacts.

Example six_files_selected :
  Net.outcome (getMainSourceFiles Fixture.six_files 1 "o" "r")
  = Val [ Fixture.source "src/index.js" "index"; Fixture.source "src/main.ts" "main";
          Fixture.source "src/app.jsx" "app"; Fixture.source "src/utils.js" "utils" ].
Proof. reflexivity. Qed.

Example two_levels_five_of_seven :
  Net.outcome (getMainSourceFiles Fixture.two_levels 2 "o" "r")
  = Val Fixture.two_levels_selected.
Proof. reflexivity. Qed.

(** When [src] is a file the contents API answers with an object: the
    loop over it throws, and the selector rethrows. *)
Example src_is_a_file :
  Net.outcome
    (getMainSourceFiles
       (Fixture.env_of Fixture.found [("src", Fixture.body "text")]
          (Fixture.completion "# Sample")) 1 "o" "r")
  = Exn (TypeError "contents is not iterable").
Proof. reflexivity. Qed.

Example two_levels_short_of_fuel :
  Net.outcome (getMainSourceFiles Fixture.two_levels 1 "o" "r") = OutOfFuel.
Proof. reflexivity. Qed.

(** ** The source file selector *)

(** C1. For the listing [src/utils.js], [src/index.js], [src/app.jsx],
    [src/main.ts], [src/x.test.js], [src/y.config.js] the selector leaves
    out the last two and returns the other four as [src/index.js],
    [src/main.ts], [src/app.jsx], [src/utils.js].  In general the sorted
    files are the files walked, a file never stands before one that matches
    an earlier fragment of [index], [main], [app], a file that matches no
    fragment never stands before one that matches, and the files of one
    class keep the order of the walk. *)
Theorem selector_orders_by_priority :
  (forall fuel,
      Net.outcome (getMainSourceFiles Fixture.six_files (S fuel) "o" "r")
      = Val [ Fixture.source "src/index.js" "index"; Fixture.source "src/main.ts" "main";
              Fixture.source "src/app.jsx" "app"; Fixture.source "src/utils.js" "utils" ])
  /\ (forall files : list SourceFile.t,
         Permutation files (sort compareFiles files)
         /\ StronglySorted may_precede (sort compareFiles files)
         /\ forall k, of_class k (sort compareFiles files) = of_class k files).
Proof.
  split.
  - intros fuel. reflexivity.
  - intros files. split; [apply sort_Permutation|].
    split; [apply sort_StronglySorted|].
    intros k. apply sort_of_class.
Qed.

Lemma outcome_getMainSourceFiles env fuel owner repo :
  Net.outcome (getMainSourceFiles env fuel owner repo) =
  match Net.outcome (getRepositoryContents env owner repo "src") with
  | Val srcContents =>
      match Net.outcome (getFilesFromDirectory env fuel owner repo srcContents) with
      | Val files => Val (firstn 5 (sort compareFiles files))
      | Exn e => Exn e
      | OutOfFuel => OutOfFuel
      end
  | Exn _ => Val []
  | OutOfFuel => OutOfFuel
  end.
Proof.
  unfold getMainSourceFiles.
  rewrite outcome_try_catch, outcome_bind, outcome_try_catch, outcome_bind.
  destruct (Net.outcome (getRepositoryContents env owner repo "src"))
    as [srcContents|e|]; try reflexivity.
  simpl. rewrite outcome_bind.
  now destruct (Net.outcome (getFilesFromDirectory env fuel owner repo srcContents)).
Qed.

(** C2. Whatever the walk collects, the selector returns at most five
    files; and it does return as soon as the fuel exceeds the depth of
    the tree under [src]. *)
Theorem getMainSourceFiles_at_most_5 env owner repo n :
  selector_within_depth env owner repo n = true ->
  Net.outcome (getMainSourceFiles env (S n) owner repo) <> OutOfFuel
  /\ (forall fuel files,
         Net.outcome (getMainSourceFiles env fuel owner repo) = Val files ->
         length files <= 5).
Proof.
  intros H. split.
  - rewrite outcome_getMainSourceFiles. unfold selector_within_depth in H.
    pose proof (getRepositoryContents_ends env owner repo "src") as Hsrc.
    destruct (Net.outcome (getRepositoryContents env owner repo "src"))
      as [srcContents|e|]; [|discriminate|congruence].
    apply getFilesFromDirectory_ends in H.
    destruct (Net.outcome (getFilesFromDirectory env (S n) owner repo srcContents));
      congruence.
  - intros fuel files. rewrite outcome_getMainSourceFiles.
    destruct (Net.outcome (getRepositoryContents env owner repo "src"))
      as [srcContents|e|]; [| |discriminate].
    + destruct (Net.outcome (getFilesFromDirectory env fuel owner repo srcContents))
        as [all|e|]; try discriminate.
      intros [= <-]. rewrite length_firstn. lia.
    + intros [= <-]. simpl. lia.
Qed.

Lemma getMainSourceFiles_at_most_5_witness :
  selector_within_depth Fixture.two_levels "o" "r" 1 = true
  /\ Net.outcome (getMainSourceFiles Fixture.two_levels 2 "o" "r") <> OutOfFuel
  /\ (forall fuel files,
         Net.outcome (getMainSourceFiles Fixture.two_levels fuel "o" "r") = Val files ->
         length files <= 5).
Proof.
  split; [reflexivity|].
  apply (getMainSourceFiles_at_most_5 Fixture.two_levels "o" "r" 1). reflexivity.
Defined.

(** C7. When the listing of [src] fails, the selector returns the empty
    sequence, having issued that one request, and throws nothing. *)
Theorem getMainSourceFiles_src_listing_fails env fuel owner repo e :
  settle (github_contents env owner repo "src") = Exn e ->
  getMainSourceFiles env fuel owner repo = (Val [], [GetContents owner repo "src"]).
Proof.
  intros H. unfold getMainSourceFiles, getRepositoryContents, axios_get_contents.
  rewrite H. reflexivity.
Qed.

Lemma getMainSourceFiles_src_listing_fails_witness :
  settle (github_contents Fixture.no_src "o" "r" "src")
  = Exn (AxiosError "Request failed with status code 404" (Some 404%Z))
  /\ getMainSourceFiles Fixture.no_src 3 "o" "r" = (Val [], [GetContents "o" "r" "src"]).
Proof.
  split; [reflexivity|].
  apply (getMainSourceFiles_src_listing_fails Fixture.no_src 3 "o" "r"
           (AxiosError "Request failed with status code 404" (Some 404%Z))).
  reflexivity.
Defined.

(** The turn of the loop on such an entry returns the files collected so
    far. *)
Lemma visit_fails_on env owner repo fuel item files :
  fails_on env owner repo fuel item ->
  Net.outcome (visit env owner repo (getFilesFromDirectory env fuel owner repo) item files)
  = Val files.
Proof.
  unfold visit.
  intros [[Hty [e He]] | [[Hty [e He]] | [Hty (sub & e & Hsub & He)]]]; rewrite Hty; simpl.
  - destruct (admitted (Item.name item)); [|reflexivity].
    now rewrite outcome_try_catch, outcome_bind, He.
  - now rewrite outcome_try_catch, outcome_bind, He.
  - now rewrite outcome_try_catch, outcome_bind, Hsub, outcome_bind, He.
Qed.

(** C8. An entry on which the walk fails adds nothing: the walk of the
    listing gives what the walk of the listing without that entry gives,
    so the entries after it are still visited.  No failure inside the walk
    of a listing reaches the caller: neither the walk nor the selector
    throws. *)
Theorem getFilesFromDirectory_tolerates_failures env owner repo fuel before item after :
  fails_on env owner repo fuel item ->
  Net.outcome
    (getFilesFromDirectory env (S fuel) owner repo (Listing (before ++ item :: after)))
  = Net.outcome (getFilesFromDirectory env (S fuel) owner repo (Listing (before ++ after)))
  /\ (forall e,
         Net.outcome
           (getFilesFromDirectory env (S fuel) owner repo (Listing (before ++ item :: after)))
         <> Exn e)
  /\ (forall e,
         Net.outcome (getRepositoryContents env owner repo "src")
         = Val (Listing (before ++ item :: after)) ->
         Net.outcome (getMainSourceFiles env (S fuel) owner repo) <> Exn e).
Proof.
  intros Hfail. split; [|split].
  - rewrite !getFilesFromDirectory_S, !outcome_for_of_app.
    destruct (Net.outcome (Net.for_of before _ [])) as [files|e|]; try reflexivity.
    simpl. rewrite outcome_bind. now rewrite visit_fails_on.
  - intros e. apply getFilesFromDirectory_no_throw.
  - intros e Hsrc. rewrite outcome_getMainSourceFiles, Hsrc.
    pose proof (getFilesFromDirectory_no_throw env owner repo (S fuel)
                  (before ++ item :: after)) as Hwalk.
    destruct (Net.outcome
                (getFilesFromDirectory env (S fuel) owner repo
                   (Listing (before ++ item :: after)))) as [files|e'|];
      try discriminate.
    now specialize (Hwalk e').
Qed.

Lemma fails_on_gone :
  fails_on Fixture.two_levels "o" "r" 0 (Fixture.file "src" "gone.js").
Proof. left. split; [reflexivity|]. eexists. reflexivity. Defined.

Lemma getFilesFromDirectory_tolerates_failures_witness :
  let before := [ Fixture.file "src" "a.js" ] in
  let item := Fixture.file "src" "gone.js" in
  let after := [ Fixture.dir "src" "locked"; Fixture.file "src" "b.ts" ] in
  fails_on Fixture.two_levels "o" "r" 0 item
  /\ Net.outcome
       (getFilesFromDirectory Fixture.two_levels 1 "o" "r" (Listing (before ++ item :: after)))
     = Net.outcome
         (getFilesFromDirectory Fixture.two_levels 1 "o" "r" (Listing (before ++ after)))
  /\ (forall e,
         Net.outcome
           (getFilesFromDirectory Fixture.two_levels 1 "o" "r"
              (Listing (before ++ item :: after)))
         <> Exn e)
  /\ (forall e,
         Net.outcome (getRepositoryContents Fixture.two_levels "o" "r" "src")
         = Val (Listing (before ++ item :: after)) ->
         Net.outcome (getMainSourceFiles Fixture.two_levels 1 "o" "r") <> Exn e).
Proof.
  intros before item after. split; [exact fails_on_gone|].
  apply (getFilesFromDirectory_tolerates_failures Fixture.two_levels "o" "r" 0
           before item after).
  exact fails_on_gone.
Defined.

Example walk_skips_what_fails :
  Net.outcome
    (getFilesFromDirectory Fixture.two_levels 1 "o" "r"
       (Listing [ Fixture.file "src" "a.js"; Fixture.file "src" "gone.js";
                  Fixture.dir "src" "locked"; Fixture.file "src" "b.ts" ]))
  = Val [ Fixture.source "src/a.js" "a"; Fixture.source "src/b.ts" "b" ].
Proof. reflexivity. Qed.

(** ** The repository structure *)

Lemma outcome_packageJson env owner repo :
  Net.outcome
    (Net.try_catch
       (let* packageResponse := getFileContent env owner repo "package.json" in
        match JSON_parse env packageResponse with
        | Some v => Net.ret v
        | None => Net.throw (SyntaxError "Unexpected token in JSON")
        end)
       (fun _ => Net.ret JNull))
  = Val match Net.outcome (getFileContent env owner repo "package.json") with
        | Val text =>
            match JSON_parse env text with
            | Some v => v
            | None => JNull
            end
        | _ => JNull
        end.
Proof.
  rewrite outcome_try_catch, outcome_bind.
  pose proof (getFileContent_ends env owner repo "package.json") as H.
  destruct (Net.outcome (getFileContent env owner repo "package.json")) as [text|e|];
    [|reflexivity|congruence].
  now destruct (JSON_parse env text).
Qed.

Lemma outcome_readme env owner repo :
  Net.outcome
    (Net.try_catch
       (let* text := getFileContent env owner repo "README.md" in Net.ret (Some text))
       (fun _ => Net.ret None))
  = Val match Net.outcome (getFileContent env owner repo "README.md") with
        | Val text => Some text
        | _ => None
        end.
Proof.
  rewrite outcome_try_catch, outcome_bind.
  pose proof (getFileContent_ends env owner repo "README.md") as H.
  destruct (Net.outcome (getFileContent env owner repo "README.md")) as [text|e|];
    [reflexivity|reflexivity|congruence].
Qed.

Lemma outcome_getRepositoryStructure env owner repo :
  Net.outcome (getRepositoryStructure env owner repo) =
  match settle (github_repos env owner repo) with
  | Val repoResponse =>
      Val {| description := repo_description (data repoResponse);
             packageJson :=
               match Net.outcome (getFileContent env owner repo "package.json") with
               | Val text =>
                   match JSON_parse env text with
                   | Some v => v
                   | None => JNull
                   end
               | _ => JNull
               end;
             readme :=
               match Net.outcome (getFileContent env owner repo "README.md") with
               | Val text => Some text
               | _ => None
               end |}
  | Exn e => Exn e
  | OutOfFuel => OutOfFuel
  end.
Proof.
  unfold getRepositoryStructure.
  rewrite outcome_try_catch, outcome_bind.
  unfold axios_get_repo. cbn [Net.outcome fst].
  destruct (settle (github_repos env owner repo)) as [repoResponse|e|]; try reflexivity.
  rewrite outcome_bind, outcome_packageJson, outcome_bind, outcome_readme.
  reflexivity.
Qed.

(** C9. The fetch of the structure first asks for the repository, and a
    failure of that request is the failure of the fetch.  When that request
    is fulfilled the fetch returns, whatever happens to the two files: the
    manifest is [null] when [package.json] cannot be fetched or is not
    JSON, the readme is [null] when [README.md] cannot be fetched, and
    neither field depends on the other file. *)
Theorem getRepositoryStructure_degrades env owner repo :
  (exists rest,
      Net.issued (getRepositoryStructure env owner repo) = GetRepo owner repo :: rest)
  /\ match settle (github_repos env owner repo) with
     | Val repoResponse =>
         Net.outcome (getRepositoryStructure env owner repo)
         = Val {| description := repo_description (data repoResponse);
                  packageJson :=
                    match Net.outcome (getFileContent env owner repo "package.json") with
                    | Val text =>
                        match JSON_parse env text with
                        | Some v => v
                        | None => JNull
                        end
                    | _ => JNull
                    end;
                  readme :=
                    match Net.outcome (getFileContent env owner repo "README.md") with
                    | Val text => Some text
                    | _ => None
                    end |}
     | Exn e => getRepositoryStructure env owner repo = (Exn e, [GetRepo owner repo])
     | OutOfFuel => False
     end.
Proof.
  split.
  - unfold getRepositoryStructure.
    match goal with
    | |- context [Net.try_catch (Net.bind ?m ?k) ?h] =>
        destruct (issued_try_catch_prefix (Net.bind m k) h) as [rest1 ->];
        destruct (issued_bind_prefix m k) as [rest2 ->]
    end.
    simpl. eauto.
  - pose proof (outcome_getRepositoryStructure env owner repo) as H.
    pose proof (settle_ends (github_repos env owner repo)) as Hends.
    destruct (settle (github_repos env owner repo)) as [repoResponse|e|] eqn:E;
      [exact H | | congruence].
    unfold getRepositoryStructure, axios_get_repo. now rewrite E.
Qed.

Example structure_of_two_levels :
  Net.outcome (getRepositoryStructure Fixture.two_levels "o" "r")
  = Val Fixture.two_levels_structure.
Proof. reflexivity. Qed.

(** ** The connect flow *)

Example connect_found :
  let p := snd (connectRepository Fixture.two_levels
                  (Fixture.page "https://github.com/alice/project" ∅)) in
  localStorage p !! "currentRepo" = Some {| owner := "alice"; repo := "project" |}
  /\ statusCard p = Some ("Repository connected successfully!", success)
  /\ requests p = [GetRepo "alice" "project"].
Proof. repeat split; reflexivity. Qed.

Example connect_missing :
  let stored : gmap string RepositoryIdentity :=
    {[ "currentRepo" := {| owner := "bob"; repo := "old" |} ]} in
  let p := snd (connectRepository Fixture.missing
                  (Fixture.page "https://github.com/alice/project" stored)) in
  localStorage p = stored
  /\ statusCard p = Some ("Error connecting to repository. Repository not found or private.",
                          error)
  /\ connectRepoBtn_disabled p = false.
Proof. repeat split; reflexivity. Qed.

Lemma settle_200 {A} (d : A) : settle (Response 200%Z d) = Val {| status := 200%Z; data := d |}.
Proof. reflexivity. Qed.

Lemma settle_404 {A} (d : A) :
  settle (Response 404%Z d)
  = Exn (AxiosError "Request failed with status code 404" (Some 404%Z)).
Proof. reflexivity. Qed.

#[local] Arguments extract_identity : simpl never.
#[local] Arguments settle : simpl never.

(** The [catch] block of the connect handler leaves the storage alone. *)
Lemma connectRepository_catch_storage e p :
  localStorage (snd (connectRepository_catch e p)) = localStorage p.
Proof. reflexivity. Qed.

(** Up to the point where it throws, the [try] block has not written. *)
Lemma connectRepository_try_storage env p e :
  fst (connectRepository_try env p) = Exn e ->
  localStorage (snd (connectRepository_try env p)) = localStorage p.
Proof.
  unfold connectRepository_try, M.bind, M.modify, M.read, M.await, M.throw, M.ret. simpl.
  destruct (configured (VITE_GITHUB_TOKEN env)); simpl; [|reflexivity].
  destruct (extract_identity (repoUrlInput_value p)) as [e'|id]; simpl; [reflexivity|].
  destruct (settle (github_repos env (owner id) (repo id))) as [response|e'|];
    simpl; [|reflexivity|reflexivity].
  destruct (status response =? 200)%Z; simpl; discriminate.
Qed.

(** C6. A connect whose lookup is answered with 200 writes the identity
    parsed from the input into the slot [currentRepo], and only there.  A
    connect that fails, for whatever reason, leaves the storage as it was;
    a lookup answered with 404 is such a failure. *)
Theorem connectRepository_cache env p :
  (forall id d,
      configured (VITE_GITHUB_TOKEN env) = true ->
      extract_identity (repoUrlInput_value p) = inr id ->
      github_repos env (owner id) (repo id) = Response 200%Z d ->
      localStorage (snd (connectRepository env p))
      = <["currentRepo" := id]> (localStorage p))
  /\ (forall e,
         fst (connectRepository_try env p) = Exn e ->
         localStorage (snd (connectRepository env p)) = localStorage p)
  /\ (forall id d,
         configured (VITE_GITHUB_TOKEN env) = true ->
         extract_identity (repoUrlInput_value p) = inr id ->
         github_repos env (owner id) (repo id) = Response 404%Z d ->
         (exists e, fst (connectRepository_try env p) = Exn e
                    /\ classify e = Some NotFoundError)
         /\ localStorage (snd (connectRepository env p)) = localStorage p).
Proof.
  assert (forall e,
             fst (connectRepository_try env p) = Exn e ->
             localStorage (snd (connectRepository env p)) = localStorage p) as Hfail.
  { intros e He. pose proof (connectRepository_try_storage env p e He) as Hs.
    unfold connectRepository, M.try_catch.
    destruct (connectRepository_try env p) as [o p']. simpl in He, Hs. subst o.
    now rewrite connectRepository_catch_storage. }
  split; [|split; [exact Hfail|]].
  - intros id d Htoken Hid Hreply.
    unfold connectRepository, M.try_catch, connectRepository_try, M.bind, M.modify,
      M.read, M.await, M.throw, M.ret, axios_get_repo. simpl.
    rewrite Htoken. simpl. rewrite Hid, Hreply, settle_200. reflexivity.
  - intros id d Htoken Hid Hreply.
    assert (fst (connectRepository_try env p)
            = Exn (AxiosError "Request failed with status code 404" (Some 404%Z))) as He.
    { unfold connectRepository_try, M.bind, M.modify, M.read, M.await, M.throw, M.ret,
        axios_get_repo. simpl.
      rewrite Htoken. simpl. rewrite Hid, Hreply, settle_404. reflexivity. }
    split; [eexists; split; [exact He | reflexivity]|].
    eapply Hfail, He.
Qed.

Lemma connectRepository_cache_witness :
  let stored : gmap string RepositoryIdentity :=
    {[ "currentRepo" := {| owner := "bob"; repo := "old" |} ]} in
  let p := Fixture.page "https://github.com/alice/project" stored in
  let id := {| owner := "alice"; repo := "project" |} in
  (configured (VITE_GITHUB_TOKEN Fixture.two_levels) = true
   /\ extract_identity (repoUrlInput_value p) = inr id
   /\ github_repos Fixture.two_levels (owner id) (repo id)
      = Response 200%Z {| repo_description := Some "A sample repository" |}
   /\ localStorage (snd (connectRepository Fixture.two_levels p))
      = <["currentRepo" := id]> stored)
  /\ (github_repos Fixture.missing (owner id) (repo id)
      = Response 404%Z {| repo_description := None |}
      /\ localStorage (snd (connectRepository Fixture.missing p)) = stored).
Proof.
  intros stored p id. split.
  - repeat (split; [reflexivity|]).
    apply (proj1 (connectRepository_cache Fixture.two_levels p) id
             {| repo_description := Some "A sample repository" |}); reflexivity.
  - split; [reflexivity|].
    apply (proj2 (proj2 (connectRepository_cache Fixture.missing p)) id
             {| repo_description := None |}); reflexivity.
Defined.

(** ** The identity parsed from the input *)

Section RepoUrlFacts.
Import RepoUrl.

Lemma includes_slash_cons (c : ascii) (s : string) :
  includes "/" (String c s) = Ascii.eqb "/" c || includes "/" s.
Proof. cbn [includes startsWith]. now destruct (Ascii.eqb "/" c). Qed.

Lemma span_no_slash_app (a rest : string) :
  includes "/" a = false ->
  (rest = "" \/ exists more, rest = "/" +:+ more) ->
  span_no_slash (a +:+ rest) = (a, rest).
Proof.
  intros Ha Hrest. induction a as [|c a IH].
  - destruct Hrest as [-> | [more ->]]; reflexivity.
  - rewrite includes_slash_cons in Ha. apply orb_false_iff in Ha as [Hc Ha].
    rewrite append_cons. cbn [span_no_slash]. unfold slash.
    rewrite Ascii.eqb_sym, Hc, (IH Ha). reflexivity.
Qed.

Lemma span_no_slash_spec (s run rest : string) :
  span_no_slash s = (run, rest) ->
  s = run +:+ rest
  /\ includes "/" run = false
  /\ (rest = "" \/ exists more, rest = "/" +:+ more).
Proof.
  revert run rest. induction s as [|c s IH]; intros run rest H;
    cbn [span_no_slash] in H.
  - injection H as <- <-. auto.
  - destruct (Ascii.eqb c slash) eqn:Ec.
    + injection H as <- <-. apply Ascii.eqb_eq in Ec as ->.
      split; [reflexivity|]. split; [reflexivity|]. right. now exists s.
    + destruct (span_no_slash s) as [run' rest'] eqn:Es.
      injection H as <- <-.
      destruct (IH run' rest' eq_refl) as (-> & Hrun & Hrest).
      split; [reflexivity|]. split; [|assumption].
      rewrite includes_slash_cons, Hrun, Ascii.eqb_sym. unfold slash in Ec.
      now rewrite Ec.
Qed.

Lemma strip_prefix_app (p t : string) : strip_prefix p (p +:+ t) = Some t.
Proof.
  induction p as [|c p IH]; [now destruct t|].
  rewrite append_cons. cbn [strip_prefix]. now rewrite Ascii.eqb_refl.
Qed.

Lemma strip_prefix_spec (p s t : string) : strip_prefix p s = Some t -> s = p +:+ t.
Proof.
  revert s. induction p as [|c p IH]; intros s H.
  - destruct s; cbn [strip_prefix] in H; now injection H as <-.
  - destruct s as [|d s]; cbn [strip_prefix] in H; [discriminate|].
    destruct (Ascii.eqb c d) eqn:E; [|discriminate].
    apply Ascii.eqb_eq in E as ->. rewrite append_cons. f_equal. now apply IH.
Qed.

Lemma is_segment_cons (s : string) :
  is_segment s = true -> includes "/" s = false /\ exists c s', s = String c s'.
Proof.
  unfold is_segment. intros [Ht Hs]%andb_true_iff.
  apply negb_true_iff in Hs. split; [assumption|].
  destruct s; [discriminate | eauto].
Qed.

(** The pattern matches at the start of [s] exactly when [s] has the
    shape from its first character on. *)
Lemma match_here_shape (s o r : string) :
  match_here s = Some (o, r) <-> exists rest, url_shape s "" o r rest.
Proof.
  unfold match_here, url_shape. split.
  - destruct (strip_prefix "github.com/" s) as [s1|] eqn:E1; [|discriminate].
    apply strip_prefix_spec in E1 as ->.
    destruct (span_no_slash s1) as [g1 s2] eqn:E2.
    apply span_no_slash_spec in E2 as (-> & Hg1 & Hs2).
    destruct g1 as [|c1 g1]; [discriminate|].
    destruct s2 as [|c2 s3]; [discriminate|].
    destruct Hs2 as [? | [more Hmore]]; [discriminate|].
    change ("/" +:+ more) with (String "/" more) in Hmore. injection Hmore as -> ->.
    destruct (span_no_slash more) as [g2 s4] eqn:E3.
    apply span_no_slash_spec in E3 as (-> & Hg2 & Hs4).
    destruct g2 as [|c3 g2]; [discriminate|].
    intros [= <- <-]. exists s4. unfold is_segment. rewrite Hg1, Hg2. auto.
  - intros (rest & -> & Ho & Hr & Hrest).
    apply is_segment_cons in Ho as (Ho & co & o' & ->).
    apply is_segment_cons in Hr as (Hr & cr & r' & ->).
    change ("" +:+ "github.com/" +:+ String co o' +:+ "/" +:+ String cr r' +:+ rest)
      with ("github.com/" +:+ String co o' +:+ "/" +:+ String cr r' +:+ rest).
    rewrite strip_prefix_app, (span_no_slash_app _ _ Ho) by eauto.
    change ("/" +:+ String cr r' +:+ rest) with (String "/" (String cr r' +:+ rest)).
    cbv beta iota. now rewrite (span_no_slash_app _ _ Hr).
Qed.

Lemma regex_match_unfold (s : string) :
  regex_match s =
  match match_here s with
  | Some groups => Some groups
  | None =>
      match s with
      | EmptyString => None
      | String _ s' => regex_match s'
      end
  end.
Proof. now destruct s. Qed.

Lemma url_shape_cons (c : ascii) (s pre o r rest : string) :
  url_shape (String c s) (String c pre) o r rest <-> url_shape s pre o r rest.
Proof.
  unfold url_shape. rewrite append_cons. split.
  - intros ([= ->] & ?). auto.
  - intros (-> & ?). auto.
Qed.

Lemma url_shape_head (c d : ascii) (s pre o r rest : string) :
  url_shape (String c s) (String d pre) o r rest -> c = d.
Proof. unfold url_shape. rewrite append_cons. now intros ([= -> _] & _). Qed.

Lemma regex_match_shape (s o r : string) :
  regex_match s = Some (o, r) <->
  exists pre rest, url_shape s pre o r rest /\ leftmost s pre.
Proof.
  split.
  - revert o r. induction s as [|c s IH]; intros o r; rewrite regex_match_unfold.
    + destruct (match_here "") as [[o' r']|] eqn:E; [|discriminate].
      intros [= -> ->]. apply match_here_shape in E as [rest E].
      exists "", rest. split; [assumption|]. intros ? ? ? ? _. simpl. lia.
    + destruct (match_here (String c s)) as [[o' r']|] eqn:E.
      * intros [= -> ->]. apply match_here_shape in E as [rest E].
        exists "", rest. split; [assumption|]. intros ? ? ? ? _. simpl. lia.
      * intros H. apply IH in H as (pre & rest & Hshape & Hleft).
        exists (String c pre), rest. split; [now apply url_shape_cons|].
        intros [|d pre'] o' r' rest' H'.
        -- assert (match_here (String c s) = Some (o', r')) as E'
             by (apply match_here_shape; eauto).
           congruence.
        -- pose proof (url_shape_head _ _ _ _ _ _ _ H') as ->.
           apply (proj1 (url_shape_cons _ _ _ _ _ _)) in H'. apply Hleft in H'. simpl. lia.
  - intros (pre & rest & Hshape & Hleft). revert s Hshape Hleft.
    induction pre as [|c pre IH]; intros s Hshape Hleft; rewrite regex_match_unfold.
    + assert (match_here s = Some (o, r)) as -> by (apply match_here_shape; eauto).
      reflexivity.
    + destruct s as [|d s].
      { destruct Hshape as [Hs _]. rewrite append_cons in Hs. discriminate. }
      pose proof (url_shape_head _ _ _ _ _ _ _ Hshape) as ->.
      apply (proj1 (url_shape_cons _ _ _ _ _ _)) in Hshape.
      destruct (match_here (String c s)) as [[o' r']|] eqn:E.
      * apply match_here_shape in E as [rest' E]. apply Hleft in E. simpl in E. lia.
      * apply IH; [assumption|].
        intros pre' o' r' rest' H'. apply (proj2 (url_shape_cons c _ _ _ _ _)) in H'.
        apply Hleft in H'. simpl in H'. lia.
Qed.

End RepoUrlFacts.

Lemma extract_identity_regex (s : string) (id : RepositoryIdentity) :
  extract_identity s = inr id <-> RepoUrl.regex_match s = Some (owner id, repo id).
Proof.
  unfold extract_identity. destruct s as [|c s].
  - split; discriminate.
  - cbn [truthy String.eqb negb].
    destruct (RepoUrl.regex_match (String c s)) as [[o r]|]; destruct id as [o' r'];
      simpl; split; congruence.
Qed.

(** C3, as the code has it.  An input in which the text
    [github.com/<owner>/<repo>] occurs, at any position, followed by nothing
    or by a slash, yields the owner and the repository of the leftmost
    occurrence, and nothing else is ever yielded; an input in which that text
    does not occur is refused with an input error. *)
Theorem extract_identity_shape (s : string) :
  (forall pre owner repo rest,
      url_shape s pre owner repo rest ->
      leftmost s pre ->
      extract_identity s = inr {| owner := owner; repo := repo |})
  /\ (forall id,
         extract_identity s = inr id ->
         exists pre rest, url_shape s pre (owner id) (repo id) rest /\ leftmost s pre)
  /\ ((~ exists pre owner repo rest, url_shape s pre owner repo rest) ->
      exists e, extract_identity s = inl e /\ classify e = Some InputError).
Proof.
  split; [|split].
  - intros pre o r rest Hshape Hleft.
    apply extract_identity_regex, regex_match_shape. simpl. eauto.
  - intros id H. now apply extract_identity_regex, regex_match_shape in H.
  - intros Hnone. unfold extract_identity.
    destruct (negb (truthy s)); [eexists; split; reflexivity|].
    destruct (RepoUrl.regex_match s) as [[o r]|] eqn:E; [|eexists; split; reflexivity].
    apply regex_match_shape in E as (pre & rest & Hshape & _).
    exfalso. apply Hnone. eauto.
Qed.

Lemma extract_identity_shape_witness :
  let s := "https://github.com/VictorEZCodes/code-doc-assistant/tree/main/src" in
  url_shape s "https://" "VictorEZCodes" "code-doc-assistant" "/tree/main/src"
  /\ leftmost s "https://"
  /\ extract_identity s = inr {| owner := "VictorEZCodes"; repo := "code-doc-assistant" |}.
Proof.
  intros s.
  assert (url_shape s "https://" "VictorEZCodes" "code-doc-assistant" "/tree/main/src")
    as Hshape.
  { split; [reflexivity|]. split; [reflexivity|]. split; [reflexivity|].
    right. now exists "tree/main/src". }
  assert (leftmost s "https://") as Hleft.
  { intros pre' o' r' rest' (H & _). unfold s in H.
    do 8 (destruct pre' as [|? pre']; [cbv [String.append] in H; discriminate H|]).
    simpl. lia. }
  split; [exact Hshape|]. split; [exact Hleft|].
  exact (proj1 (extract_identity_shape s) _ _ _ _ Hshape Hleft).
Defined.

(** C3, as the specification has it, fails both ways.  Read for any host:
    a URL of that shape on another host is refused.  Read for the host
    [github.com]: a URL of another host, hence not of the shape, is accepted
    when [github.com/<owner>/<repo>] occurs further down its path, and what
    is yielded is not its first two path segments. *)
Lemma extract_identity_claim_counterexample :
  (claimed_shape "gitlab.com" "https://gitlab.com/alice/project" "alice" "project"
   /\ extract_identity "https://gitlab.com/alice/project"
      = inl (Error "Invalid GitHub repository URL"))
  /\ (let s := "https://example.com/github.com/alice/project" in
      claimed_shape "example.com" s "github.com" "alice"
      /\ (~ exists owner repo, claimed_shape "github.com" s owner repo)
      /\ extract_identity s = inr {| owner := "alice"; repo := "project" |}).
Proof.
  split; [split; [|reflexivity]|split; [|split; [|reflexivity]]].
  - exists "https://", "". repeat split; auto.
  - exists "https://", "/project". repeat split; auto. right. now exists "project".
  - intros (o & r & scheme & rest & H & [-> | [-> | ->]] & _);
      cbv [String.append] in H; discriminate H.
Qed.

Example extract_identity_empty :
  extract_identity "" = inl (Error "Please enter a repository URL")
  /\ classify (Error "Please enter a repository URL") = Some InputError.
Proof. split; reflexivity. Qed.

Example extract_https :
  extract_identity "https://github.com/VictorEZCodes/code-doc-assistant/tree/main/src"
  = inr {| owner := "VictorEZCodes"; repo := "code-doc-assistant" |}.
Proof. reflexivity. Qed.

Example extract_other_host :
  extract_identity "https://gitlab.com/alice/project"
  = inl (Error "Invalid GitHub repository URL").
Proof. reflexivity. Qed.

Example extract_owner_only :
  extract_identity "https://github.com/alice/" = inl (Error "Invalid GitHub repository URL").
Proof. reflexivity. Qed.

Example extract_second_occurrence :
  extract_identity "github.com//github.com/alice/project"
  = inr {| owner := "alice"; repo := "project" |}.
Proof. reflexivity. Qed.

(** ** The generate flow *)

Lemma set_requests_twice (l l' : list Request) (p : Page) :
  Page.set_requests l (Page.set_requests l' p) = Page.set_requests l p.
Proof. reflexivity. Qed.

(** Awaiting helpers in a row is awaiting their sequence. *)
Lemma await_bind {A B C D} (m : Net.t A) (k : A -> Net.t B) (k' : A -> B -> Net.t C)
    (rest : C -> M.t D) (p : Page) :
  (let! a := M.await m in
   let! b := M.await (k a) in
   let! c := M.await (k' a b) in rest c) p
  = (let! c := M.await (let* a := m in let* b := k a in k' a b) in rest c) p.
Proof.
  unfold M.bind, M.await. destruct m as [[a|e|] l1]; simpl; [|reflexivity..].
  destruct (k a) as [[b|e|] l2]; simpl;
    [|now rewrite set_requests_twice, <- app_assoc..].
  destruct (k' a b) as [[c|e|] l3]; simpl;
    now rewrite !set_requests_twice, <- !app_assoc.
Qed.

Lemma generateDocumentation_try_pipeline env fuel repoInfo p :
  configured (VITE_OPENAI_API_KEY env) = true ->
  localStorage p !! "currentRepo" = Some repoInfo ->
  generateDocumentation_try env fuel p
  = (let! documentation := M.await (pipeline env fuel repoInfo) in
     render documentation ;;
     showStatusCard "Documentation generated successfully!" success ;;
     M.modify (Page.set_generateDocBtn_disabled false) ;;
     M.modify (Page.set_connectRepoBtn_disabled false) ;;
     M.modify (Page.set_repoUrlInput_disabled false)) p.
Proof.
  intros Hkey Hstored. unfold generateDocumentation_try, pipeline.
  rewrite Hkey. cbn [negb].
  unfold M.bind at 1. cbn [M.ret]. unfold M.bind at 1. unfold getItem, M.read.
  rewrite Hstored.
  apply await_bind.
Qed.

Section OnlyGithub.

Lemma only_github_bind {A B} (m : Net.t A) (k : A -> Net.t B) :
  only_github m -> (forall a, only_github (k a)) -> only_github (Net.bind m k).
Proof.
  unfold only_github. intros Hm Hk. rewrite issued_bind.
  destruct (Net.outcome m); try assumption.
  apply List.Forall_app. split; [assumption | apply Hk].
Qed.

Lemma only_github_try_catch {A} (m : Net.t A) (h : JsError -> Net.t A) :
  only_github m -> (forall e, only_github (h e)) -> only_github (Net.try_catch m h).
Proof.
  unfold only_github. intros Hm Hh. rewrite issued_try_catch.
  destruct (Net.outcome m); try assumption.
  apply List.Forall_app. split; [assumption | apply Hh].
Qed.

Lemma only_github_ret {A} (a : A) : only_github (Net.ret a).
Proof. constructor. Qed.

Lemma only_github_throw {A} (e : JsError) : only_github (@Net.throw A e).
Proof. constructor. Qed.

Lemma only_github_for_of {A B} (xs : list A) (body : A -> B -> Net.t B) (acc : B) :
  (forall x acc', only_github (body x acc')) -> only_github (Net.for_of xs body acc).
Proof.
  intros H. revert acc. induction xs as [|x xs IH]; intros acc; simpl.
  - apply only_github_ret.
  - apply only_github_bind; auto.
Qed.

Context (env : Env) (owner repo : string).

Lemma only_github_get_contents path : only_github (axios_get_contents env owner repo path).
Proof. repeat constructor. Qed.

Lemma only_github_get_repo : only_github (axios_get_repo env owner repo).
Proof. repeat constructor. Qed.

Lemma only_github_getRepositoryContents path :
  only_github (getRepositoryContents env owner repo path).
Proof.
  apply only_github_try_catch; [|intros; apply only_github_throw].
  apply only_github_bind; [apply only_github_get_contents|].
  intros. apply only_github_ret.
Qed.

Lemma only_github_getFileContent path : only_github (getFileContent env owner repo path).
Proof.
  apply only_github_try_catch; [|intros; apply only_github_throw].
  apply only_github_bind; [apply only_github_get_contents|].
  intros response. cbv beta zeta.
  match goal with
  | |- context [atob env ?b] =>
      destruct (atob env b); [apply only_github_ret | apply only_github_throw]
  end.
Qed.

Lemma only_github_getRepositoryStructure :
  only_github (getRepositoryStructure env owner repo).
Proof.
  apply only_github_try_catch; [|intros; apply only_github_throw].
  apply only_github_bind; [apply only_github_get_repo|]. intros repoResponse.
  apply only_github_bind.
  { apply only_github_try_catch; [|intros; apply only_github_ret].
    apply only_github_bind; [apply only_github_getFileContent|].
    intros text. destruct (JSON_parse env text);
      [apply only_github_ret | apply only_github_throw]. }
  intros packageJson. apply only_github_bind; [|intros; apply only_github_ret].
  apply only_github_try_catch; [|intros; apply only_github_ret].
  apply only_github_bind; [apply only_github_getFileContent|].
  intros. apply only_github_ret.
Qed.

Lemma only_github_visit recurse item files :
  (forall sub, only_github (recurse sub)) ->
  only_github (visit env owner repo recurse item files).
Proof.
  intros H. unfold visit.
  destruct (String.eqb (Item.type item) "file").
  - destruct (admitted (Item.name item)); [|apply only_github_ret].
    apply only_github_try_catch; [|intros; apply only_github_ret].
    apply only_github_bind; [apply only_github_getFileContent|].
    intros. apply only_github_ret.
  - destruct (String.eqb (Item.type item) "dir"); [|apply only_github_ret].
    apply only_github_try_catch; [|intros; apply only_github_ret].
    apply only_github_bind; [apply only_github_getRepositoryContents|].
    intros sub. apply only_github_bind; [apply H|]. intros. apply only_github_ret.
Qed.

Lemma only_github_getFilesFromDirectory fuel contents :
  only_github (getFilesFromDirectory env fuel owner repo contents).
Proof.
  revert contents. induction fuel as [|fuel IH]; intros contents; [constructor|].
  destruct contents as [items|b]; [|apply only_github_throw].
  rewrite getFilesFromDirectory_S. apply only_github_for_of.
  intros. now apply only_github_visit.
Qed.

Lemma only_github_getMainSourceFiles fuel :
  only_github (getMainSourceFiles env fuel owner repo).
Proof.
  apply only_github_try_catch; [|intros; apply only_github_throw].
  apply only_github_bind.
  { apply only_github_try_catch; [|intros; apply only_github_ret].
    apply only_github_bind; [apply only_github_getRepositoryContents|].
    intros. apply only_github_ret. }
  intros [srcContents|]; [|apply only_github_ret].
  apply only_github_bind; [apply only_github_getFilesFromDirectory|].
  intros. apply only_github_ret.
Qed.

End OnlyGithub.

Lemma only_github_not_post {A} (m : Net.t A) (body : ChatRequest) :
  only_github m -> ~ In (PostChatCompletions body) (Net.issued m).
Proof.
  unfold only_github. rewrite List.Forall_forall. intros H Hin.
  apply H in Hin. discriminate.
Qed.

Lemma generate_empty env repoInfo repoStructure :
  generate env repoInfo repoStructure [] = (Exn no_source_files, []).
Proof. reflexivity. Qed.

Lemma issued_generate env repoInfo repoStructure sourceFiles :
  Net.issued (generate env repoInfo repoStructure sourceFiles)
  = match sourceFiles with
    | [] => []
    | _ :: _ =>
        [PostChatCompletions (Prompt.chat_request env repoInfo repoStructure sourceFiles)]
    end.
Proof.
  destruct sourceFiles as [|f files]; [reflexivity|].
  unfold generate. cbn [length Nat.eqb]. rewrite issued_bind.
  unfold axios_post_chat at 1 2. cbn [Net.outcome Net.issued fst snd].
  destruct (settle _) as [response|e|]; try reflexivity.
  now destruct (first_choice_content (data response)).
Qed.

(** The only completion request of the flow is the one of [generate], for
    the structure and the files the two fetches returned. *)
Lemma pipeline_post env fuel repoInfo body :
  In (PostChatCompletions body) (Net.issued (pipeline env fuel repoInfo)) ->
  exists repoStructure sourceFiles,
    Net.outcome (getRepositoryStructure env (owner repoInfo) (repo repoInfo))
    = Val repoStructure
    /\ Net.outcome (getMainSourceFiles env fuel (owner repoInfo) (repo repoInfo))
       = Val sourceFiles
    /\ sourceFiles <> []
    /\ body = Prompt.chat_request env repoInfo repoStructure sourceFiles.
Proof.
  unfold pipeline. rewrite issued_bind.
  pose proof (only_github_not_post _ body
                (only_github_getRepositoryStructure env (owner repoInfo) (repo repoInfo)))
    as Hs.
  pose proof (only_github_not_post _ body
                (only_github_getMainSourceFiles env (owner repoInfo) (repo repoInfo) fuel))
    as Hf.
  destruct (Net.outcome (getRepositoryStructure env (owner repoInfo) (repo repoInfo)))
    as [repoStructure|e|]; [|tauto|tauto].
  rewrite in_app_iff, issued_bind. intros [H|H]; [tauto|].
  destruct (Net.outcome (getMainSourceFiles env fuel (owner repoInfo) (repo repoInfo)))
    as [sourceFiles|e|]; [|tauto|tauto].
  apply in_app_iff in H as [H|H]; [tauto|].
  rewrite issued_generate in H. destruct sourceFiles as [|f files]; [destruct H|].
  destruct H as [[= <-]|[]]. exists repoStructure, (f :: files). auto.
Qed.

Lemma generateDocumentation_unfold env fuel p :
  generateDocumentation env fuel p =
  let p0 := Page.set_loadingIndicator_hidden false
              (Page.set_generateDocBtn_disabled true p) in
  let (o, p') := match generateDocumentation_try env fuel p0 with
                 | (Exn e, p1) => generateDocumentation_catch e p1
                 | r => r
                 end in
  (o, Page.set_loadingIndicator_hidden true p').
Proof. reflexivity. Qed.

(** What a run of the handler leaves on the page, for a configured key
    and a stored identity: the requests of the pipeline, and a preview or
    an error notification according to its outcome. *)
Lemma generateDocumentation_run env fuel repoInfo p :
  configured (VITE_OPENAI_API_KEY env) = true ->
  localStorage p !! "currentRepo" = Some repoInfo ->
  let run := generateDocumentation env fuel p in
  requests (snd run) = requests p ++ Net.issued (pipeline env fuel repoInfo)
  /\ match Net.outcome (pipeline env fuel repoInfo) with
     | Val (JString text) =>
         fst run = Val tt
         /\ preview (snd run) = Some text
         /\ statusCard (snd run) = Some ("Documentation generated successfully!", success)
     | Val documentation =>
         fst run = Val tt
         /\ preview (snd run) = preview p
         /\ statusCard (snd run)
            = Some (marked_error documentation, error)
     | Exn e =>
         fst run = Val tt
         /\ preview (snd run) = preview p
         /\ statusCard (snd run)
            = Some (if truthy (message e) then message e
                    else "Error generating documentation. Please try again.", error)
     | OutOfFuel => fst run = OutOfFuel /\ preview (snd run) = preview p
     end.
Proof.
  intros Hkey Hstored run. subst run.
  rewrite generateDocumentation_unfold. cbv zeta.
  rewrite (generateDocumentation_try_pipeline env fuel repoInfo) by assumption.
  unfold M.bind, M.await.
  destruct (pipeline env fuel repoInfo) as [[documentation|e|] log];
    cbn [Net.outcome Net.issued fst snd].
  - destruct documentation; simpl; auto.
  - simpl. auto.
  - simpl. auto.
Qed.

Lemma generateDocumentation_unconfigured env fuel p :
  configured (VITE_OPENAI_API_KEY env) = false ->
  requests (snd (generateDocumentation env fuel p)) = requests p.
Proof.
  intros H. rewrite generateDocumentation_unfold. cbv zeta.
  unfold generateDocumentation_try. rewrite H. reflexivity.
Qed.

(** C5. Given an empty list of files the generator throws the input error
    of line 296 and issues no request.  In a run of the handler in which
    the selector returned no file, the requests issued are those of the two
    fetches, none of them to the completion endpoint; the run ends with
    that error as its notification and nothing to preview. *)
Theorem generate_empty_file_list env :
  (forall repoInfo repoStructure,
      generate env repoInfo repoStructure [] = (Exn no_source_files, [])
      /\ classify no_source_files = Some InputError)
  /\ (forall fuel repoInfo repoStructure p,
         configured (VITE_OPENAI_API_KEY env) = true ->
         localStorage p !! "currentRepo" = Some repoInfo ->
         Net.outcome (getRepositoryStructure env (owner repoInfo) (repo repoInfo))
         = Val repoStructure ->
         Net.outcome (getMainSourceFiles env fuel (owner repoInfo) (repo repoInfo))
         = Val [] ->
         let run := generateDocumentation env fuel p in
         fst run = Val tt
         /\ statusCard (snd run) = Some (message no_source_files, error)
         /\ preview (snd run) = preview p
         /\ exists issued,
             requests (snd run) = requests p ++ issued
             /\ forall body, ~ In (PostChatCompletions body) issued).
Proof.
  split; [intros; split; reflexivity|].
  intros fuel repoInfo repoStructure p Hkey Hstored Hs Hf run.
  destruct (generateDocumentation_run env fuel repoInfo p Hkey Hstored) as [Hreq Hout].
  fold run in Hreq, Hout.
  assert (Net.outcome (pipeline env fuel repoInfo) = Exn no_source_files) as Hp.
  { unfold pipeline. now rewrite outcome_bind, Hs, outcome_bind, Hf. }
  rewrite Hp in Hout. destruct Hout as (H1 & H2 & H3).
  repeat split; try assumption.
  exists (Net.issued (pipeline env fuel repoInfo)). split; [assumption|].
  intros body Hin. apply pipeline_post in Hin as (st & files & _ & Hfiles & Hne & _).
  congruence.
Qed.

Lemma generate_empty_file_list_witness :
  let env := Fixture.no_src in
  let repoInfo := {| owner := "alice"; repo := "project" |} in
  let p := Fixture.page "" {[ "currentRepo" := repoInfo ]} in
  let run := generateDocumentation env 1 p in
  Net.outcome (getMainSourceFiles env 1 (owner repoInfo) (repo repoInfo)) = Val []
  /\ fst run = Val tt
  /\ statusCard (snd run) = Some (message no_source_files, error)
  /\ preview (snd run) = preview p
  /\ exists issued,
      requests (snd run) = requests p ++ issued
      /\ forall body, ~ In (PostChatCompletions body) issued.
Proof.
  intros env repoInfo p run. split; [reflexivity|].
  apply (proj2 (generate_empty_file_list env) 1 repoInfo
           {| description := Some "A sample repository";
              packageJson := JNull;
              readme := None |} p); reflexivity.
Defined.

Lemma first_choice_content_no_choice (data : JsValue) :
  no_choice data = true ->
  exists msg, first_choice_content data = inl (TypeError msg) /\ truthy msg = true.
Proof.
  unfold no_choice, first_choice_content.
  destruct data as [| |b|n|s|items|fields]; cbn [get_prop];
    try (intros _; eexists; split; reflexivity).
  destruct (assoc "choices" fields) as [| |b|n|s|[|c cs]|fs];
    try discriminate; intros _; eexists; split; reflexivity.
Qed.

(** C4, as the code has it.  When the completion endpoint answers
    without a first choice, the generator throws, but no error of its own:
    for a fulfilled answer whose [choices] cannot be read, is [undefined] or
    is empty, line 361 reads the first choice without a check and the
    engine raises the [TypeError] of that read; for a rejected answer the
    error of the request is thrown.  The handler catches either: the run
    returns, shows the message of the error (or the default text when it has
    none) as an error notification, and leaves the preview as it was, so no
    empty document is put on display. *)
Theorem generate_no_choice env repoInfo repoStructure sourceFiles :
  sourceFiles <> [] ->
  match settle (openai_chat_completions env
                  (Prompt.chat_request env repoInfo repoStructure sourceFiles)) with
  | Val response => no_choice (data response) = true
  | _ => True
  end ->
  exists e,
    Net.outcome (generate env repoInfo repoStructure sourceFiles) = Exn e
    /\ match settle (openai_chat_completions env
                       (Prompt.chat_request env repoInfo repoStructure sourceFiles)) with
       | Val _ => exists msg, e = TypeError msg /\ truthy msg = true
       | Exn rejection => e = rejection
       | OutOfFuel => False
       end
    /\ forall fuel p,
        configured (VITE_OPENAI_API_KEY env) = true ->
        localStorage p !! "currentRepo" = Some repoInfo ->
        Net.outcome (getRepositoryStructure env (owner repoInfo) (repo repoInfo))
        = Val repoStructure ->
        Net.outcome (getMainSourceFiles env fuel (owner repoInfo) (repo repoInfo))
        = Val sourceFiles ->
        let run := generateDocumentation env fuel p in
        fst run = Val tt
        /\ statusCard (snd run)
           = Some (if truthy (message e) then message e
                   else "Error generating documentation. Please try again.", error)
        /\ preview (snd run) = preview p.
Proof.
  intros Hfiles Hdata.
  assert (exists e,
             Net.outcome (generate env repoInfo repoStructure sourceFiles) = Exn e
             /\ match settle (openai_chat_completions env
                                (Prompt.chat_request env repoInfo repoStructure
                                   sourceFiles)) with
                | Val _ => exists msg, e = TypeError msg /\ truthy msg = true
                | Exn rejection => e = rejection
                | OutOfFuel => False
                end) as (e & Hgen & Hkind).
  { unfold generate. destruct sourceFiles as [|f files]; [congruence|].
    cbn [length Nat.eqb]. rewrite outcome_bind.
    unfold axios_post_chat. cbn [Net.outcome fst].
    pose proof (settle_ends
                  (openai_chat_completions env
                     (Prompt.chat_request env repoInfo repoStructure (f :: files))))
      as Hends.
    destruct (settle (openai_chat_completions env
                        (Prompt.chat_request env repoInfo repoStructure (f :: files))))
      as [response|rejection|]; [| now exists rejection | congruence].
    destruct (first_choice_content_no_choice _ Hdata) as (msg & Hmsg & Htruthy).
    exists (TypeError msg). rewrite Hmsg. split; [reflexivity | eauto]. }
  exists e. split; [exact Hgen|]. split; [exact Hkind|].
  intros fuel p Hkey Hstored Hs Hf run.
  destruct (generateDocumentation_run env fuel repoInfo p Hkey Hstored) as [_ Hout].
  fold run in Hout. unfold pipeline in Hout.
  rewrite outcome_bind, Hs, outcome_bind, Hf, Hgen in Hout.
  destruct Hout as (Hret & Hpreview & Hcard). auto.
Qed.

Lemma generate_no_choice_witness :
  let env := Fixture.no_choices in
  let repoInfo := {| owner := "alice"; repo := "project" |} in
  let response := {| status := 200%Z; data := JObject [("choices", JArray [])] |} in
  (settle (openai_chat_completions env
             (Prompt.chat_request env repoInfo Fixture.two_levels_structure
                Fixture.two_levels_selected))
   = Val response
   /\ no_choice (data response) = true)
  /\ exists e,
      Net.outcome (generate env repoInfo Fixture.two_levels_structure
                     Fixture.two_levels_selected) = Exn e
      /\ (exists msg, e = TypeError msg /\ truthy msg = true)
      /\ forall fuel p,
          configured (VITE_OPENAI_API_KEY env) = true ->
          localStorage p !! "currentRepo" = Some repoInfo ->
          Net.outcome (getRepositoryStructure env (owner repoInfo) (repo repoInfo))
          = Val Fixture.two_levels_structure ->
          Net.outcome (getMainSourceFiles env fuel (owner repoInfo) (repo repoInfo))
          = Val Fixture.two_levels_selected ->
          let run := generateDocumentation env fuel p in
          fst run = Val tt
          /\ statusCard (snd run)
             = Some (if truthy (message e) then message e
                     else "Error generating documentation. Please try again.", error)
          /\ preview (snd run) = preview p.
Proof.
  intros env repoInfo response. split; [split; reflexivity|].
  apply (generate_no_choice env repoInfo Fixture.two_levels_structure
           Fixture.two_levels_selected); [discriminate | reflexivity].
Defined.

(** C4, as the specification has it, fails.  An answer with status 200
    and an empty array of choices makes the generator fail with the
    [TypeError] that the engine raises for the read of [message] on
    [undefined]: the unchecked read of line 361, not a transport error the
    generator reports.  An answer without choices that is rejected with 401
    makes it fail with the error of the request, which is a rejected
    credential, not a transport error either. *)
Lemma generate_no_choice_claim_counterexample :
  let repoInfo := {| owner := "alice"; repo := "project" |} in
  (let e := TypeError "Cannot read properties of undefined (reading 'message')" in
   no_choice (JObject [("choices", JArray [])]) = true
   /\ first_choice_content (JObject [("choices", JArray [])]) = inl e
   /\ Net.outcome (generate Fixture.no_choices repoInfo Fixture.two_levels_structure
                     Fixture.two_levels_selected) = Exn e
   /\ classify e <> Some TransportError)
  /\ (let env := Fixture.env_of Fixture.found Fixture.two_levels_tree
                   (Response 401%Z JNull) in
      let e := AxiosError "Request failed with status code 401" (Some 401%Z) in
      no_choice JNull = true
      /\ Net.outcome (generate env repoInfo Fixture.two_levels_structure
                        Fixture.two_levels_selected) = Exn e
      /\ classify e = Some AuthError
      /\ classify e <> Some TransportError).
Proof.
  intros repoInfo. split.
  - repeat split; try reflexivity. discriminate.
  - repeat split; try reflexivity. discriminate.
Qed.

Example no_choices_run :
  let repoInfo := {| owner := "alice"; repo := "project" |} in
  let run := generateDocumentation Fixture.no_choices 2
               (Fixture.page "" {[ "currentRepo" := repoInfo ]}) in
  fst run = Val tt
  /\ statusCard (snd run)
     = Some ("Cannot read properties of undefined (reading 'message')", error)
  /\ preview (snd run) = None.
Proof. repeat split; reflexivity. Qed.

Example sample_run :
  let repoInfo := {| owner := "alice"; repo := "project" |} in
  let run := generateDocumentation Fixture.two_levels 2
               (Fixture.page "" {[ "currentRepo" := repoInfo ]}) in
  fst run = Val tt
  /\ statusCard (snd run) = Some ("Documentation generated successfully!", success)
  /\ preview (snd run) = Some "# Sample".
Proof. repeat split; reflexivity. Qed.

(** ** The README in the prompt *)

Lemma Substring_readme_part (text : string) :
  Substring text (Prompt.readme_part (Some text)).
Proof.
  unfold Prompt.readme_part. destruct text as [|c text].
  - apply Substring_empty.
  - cbn [truthy String.eqb negb]. do 3 apply Substring_append_l. apply Substring_refl.
Qed.

Lemma Substring_user_content env repoInfo repoStructure sourceFiles text :
  readme repoStructure = Some text ->
  Substring text (Prompt.user_content env repoInfo repoStructure sourceFiles).
Proof.
  intros H. unfold Prompt.user_content. rewrite H.
  do 10 apply Substring_append_l. apply Substring_append_r.
  apply Substring_readme_part.
Qed.

(** C10. In every run of the generate handler, a README body that the
    structure fetch gets is a contiguous substring of the user message of
    every request the run sends to the completion endpoint. *)
Theorem readme_in_request env fuel p repoInfo text issued body :
  localStorage p !! "currentRepo" = Some repoInfo ->
  Net.outcome (getFileContent env (owner repoInfo) (repo repoInfo) "README.md") = Val text ->
  requests (snd (generateDocumentation env fuel p)) = requests p ++ issued ->
  In (PostChatCompletions body) issued ->
  exists m, In m (messages body) /\ role m = "user" /\ Substring text (content m).
Proof.
  intros Hstored Hreadme Hreq Hin.
  destruct (configured (VITE_OPENAI_API_KEY env)) eqn:Hkey.
  - destruct (generateDocumentation_run env fuel repoInfo p Hkey Hstored) as [Hrun _].
    rewrite Hrun in Hreq. apply app_inv_head in Hreq. subst issued.
    apply pipeline_post in Hin as (st & files & Hst & _ & _ & ->).
    rewrite outcome_getRepositoryStructure in Hst.
    destruct (settle (github_repos env (owner repoInfo) (repo repoInfo)));
      try discriminate.
    injection Hst as <-. rewrite Hreadme.
    eexists. split; [right; left; reflexivity|]. split; [reflexivity|].
    now apply Substring_user_content.
  - rewrite (generateDocumentation_unconfigured env fuel p Hkey) in Hreq.
    rewrite <- (app_nil_r (requests p)) in Hreq at 1.
    apply app_inv_head in Hreq. subst issued. destruct Hin.
Qed.

Lemma readme_in_request_witness :
  let env := Fixture.two_levels in
  let repoInfo := {| owner := "alice"; repo := "project" |} in
  let p := Fixture.page "" {[ "currentRepo" := repoInfo ]} in
  let body := Prompt.chat_request env repoInfo Fixture.two_levels_structure
                Fixture.two_levels_selected in
  In (PostChatCompletions body) (requests (snd (generateDocumentation env 2 p)))
  /\ exists m, In m (messages body) /\ role m = "user"
               /\ Substring "Hello from the README" (content m).
Proof.
  intros env repoInfo p body.
  assert (In (PostChatCompletions body) (requests (snd (generateDocumentation env 2 p))))
    as Hin.
  { vm_compute. repeat (first [left; reflexivity | right]). }
  split; [exact Hin|].
  apply (readme_in_request env 2 p repoInfo "Hello from the README"
           (requests (snd (generateDocumentation env 2 p))) body);
    [reflexivity | reflexivity | reflexivity | exact Hin].
Defined.

(** * Further properties *)

(** ** The connect handler *)

(** The handler, case by case. *)
Lemma connectRepository_cases env p :
  connectRepository env p =
  let p1 := Page.set_connectRepoBtn_disabled true (Page.set_repoUrlInput_disabled true p) in
  if configured (VITE_GITHUB_TOKEN env) then
    match extract_identity (repoUrlInput_value p) with
    | inl e => connectRepository_catch e p1
    | inr id =>
        let p2 := Page.set_requests (requests p ++ [GetRepo (owner id) (repo id)]) p1 in
        match settle (github_repos env (owner id) (repo id)) with
        | Val response =>
            if (status response =? 200)%Z then
              (Val tt,
               Page.set_statusCard (Some ("Repository connected successfully!", success))
                 (Page.set_generateDocBtn_disabled false
                    (Page.set_localStorage (<["currentRepo" := id]> (localStorage p)) p2)))
            else (Val tt, p2)
        | Exn e => connectRepository_catch e p2
        | OutOfFuel => (OutOfFuel, p2)
        end
    end
  else connectRepository_catch (Error "GitHub token is not configured") p1.
Proof.
  unfold connectRepository, M.try_catch, connectRepository_try, M.bind, M.modify,
    M.read, M.await, M.throw, M.ret, axios_get_repo. simpl.
  destruct (configured (VITE_GITHUB_TOKEN env)); simpl; [|reflexivity].
  destruct (extract_identity (repoUrlInput_value p)) as [e|id]; simpl; [reflexivity|].
  destruct (settle (github_repos env (owner id) (repo id))) as [response|e|];
    simpl; try reflexivity.
  now destruct (status response =? 200)%Z.
Qed.

(** X1. The connect handler never rejects: whatever the input, the
    configuration and the answer of the server, the promise it returns is
    fulfilled. *)
Theorem connectRepository_never_rejects env p :
  fst (connectRepository env p) = Val tt.
Proof.
  rewrite connectRepository_cases. cbv zeta.
  destruct (configured (VITE_GITHUB_TOKEN env)); [|reflexivity].
  destruct (extract_identity (repoUrlInput_value p)) as [e|id]; [reflexivity|].
  pose proof (settle_ends (github_repos env (owner id) (repo id))) as Hends.
  destruct (settle (github_repos env (owner id) (repo id))) as [response|e|];
    [|reflexivity|congruence].
  now destruct (status response =? 200)%Z.
Qed.

(** X2. A connect that fails gives the controls back: the connect button
    and the input are enabled again, an error notification that starts with
    [Error connecting to repository. ] is shown, and the generate button, the
    preview and the storage are as before. *)
Theorem connectRepository_failure_restores env p e :
  fst (connectRepository_try env p) = Exn e ->
  let p' := snd (connectRepository env p) in
  connectRepoBtn_disabled p' = false
  /\ repoUrlInput_disabled p' = false
  /\ (exists detail,
         statusCard p' = Some ("Error connecting to repository. " +:+ detail, error))
  /\ generateDocBtn_disabled p' = generateDocBtn_disabled p
  /\ preview p' = preview p
  /\ localStorage p' = localStorage p
  /\ repoUrlInput_value p' = repoUrlInput_value p.
Proof.
  intros He p'. subst p'. revert He.
  rewrite connectRepository_cases. cbv zeta.
  unfold connectRepository_try, M.bind, M.modify, M.read, M.await, M.throw, M.ret,
    axios_get_repo. simpl.
  destruct (configured (VITE_GITHUB_TOKEN env)); simpl.
  - destruct (extract_identity (repoUrlInput_value p)) as [e'|id]; simpl.
    + intros _. repeat split; eauto.
    + destruct (settle (github_repos env (owner id) (repo id))) as [response|e'|]; simpl.
      * destruct (status response =? 200)%Z; discriminate.
      * intros _. repeat split; eauto.
      * discriminate.
  - intros _. repeat split; eauto.
Qed.

Lemma connectRepository_failure_restores_witness :
  let p := Fixture.page "not a repository" ∅ in
  let e := Error "Invalid GitHub repository URL" in
  fst (connectRepository_try Fixture.two_levels p) = Exn e
  /\ connectRepoBtn_disabled (snd (connectRepository Fixture.two_levels p)) = false
  /\ repoUrlInput_disabled (snd (connectRepository Fixture.two_levels p)) = false.
Proof.
  intros p e. split; [reflexivity|].
  destruct (connectRepository_failure_restores Fixture.two_levels p e eq_refl)
    as (H1 & H2 & _).
  split; assumption.
Defined.

(** X3. A connect issues at most one request: the lookup of the parsed
    repository, and only when the token is configured and the input parses.
    Nothing is sent for a missing token, an empty input or an input without
    [github.com/<owner>/<repo>]. *)
Theorem connectRepository_requests env p :
  requests (snd (connectRepository env p)) =
  requests p ++
  (if configured (VITE_GITHUB_TOKEN env) then
     match extract_identity (repoUrlInput_value p) with
     | inr id => [GetRepo (owner id) (repo id)]
     | inl _ => []
     end
   else []).
Proof.
  rewrite connectRepository_cases. cbv zeta.
  destruct (configured (VITE_GITHUB_TOKEN env)); [|simpl; now rewrite app_nil_r].
  destruct (extract_identity (repoUrlInput_value p)) as [e|id];
    [simpl; now rewrite app_nil_r|].
  destruct (settle (github_repos env (owner id) (repo id))) as [response|e|];
    try reflexivity.
  now destruct (status response =? 200)%Z.
Qed.

(** X4. After a connect whose lookup is answered with 200 the generate
    button is enabled, the success notification is shown, and the input and
    the connect button stay disabled. *)
Theorem connectRepository_connected env p id d :
  configured (VITE_GITHUB_TOKEN env) = true ->
  extract_identity (repoUrlInput_value p) = inr id ->
  github_repos env (owner id) (repo id) = Response 200%Z d ->
  let p' := snd (connectRepository env p) in
  generateDocBtn_disabled p' = false
  /\ statusCard p' = Some ("Repository connected successfully!", success)
  /\ connectRepoBtn_disabled p' = true
  /\ repoUrlInput_disabled p' = true
  /\ repoUrlInput_value p' = repoUrlInput_value p
  /\ preview p' = preview p.
Proof.
  intros Htoken Hid Hreply p'. subst p'.
  rewrite connectRepository_cases. cbv zeta.
  rewrite Htoken, Hid, Hreply, settle_200. simpl. auto 10.
Qed.

Lemma connectRepository_connected_witness :
  let p := Fixture.page "https://github.com/alice/project" ∅ in
  let p' := snd (connectRepository Fixture.two_levels p) in
  extract_identity (repoUrlInput_value p) = inr {| owner := "alice"; repo := "project" |}
  /\ generateDocBtn_disabled p' = false
  /\ connectRepoBtn_disabled p' = true
  /\ repoUrlInput_disabled p' = true.
Proof.
  intros p p'. split; [reflexivity|].
  destruct (connectRepository_connected Fixture.two_levels p
              {| owner := "alice"; repo := "project" |}
              {| repo_description := Some "A sample repository" |}
              eq_refl eq_refl eq_refl) as (H1 & _ & H3 & H4 & _).
  auto.
Defined.

(** X5. The handler only acts on the status 200.  A lookup that is
    fulfilled with another status (201 to 299) stores nothing and shows
    nothing, and the input and the connect button are left disabled: neither
    the success branch nor the [catch] block runs. *)
Theorem connectRepository_other_success_status env p id st d :
  configured (VITE_GITHUB_TOKEN env) = true ->
  extract_identity (repoUrlInput_value p) = inr id ->
  github_repos env (owner id) (repo id) = Response st d ->
  (200 < st < 300)%Z ->
  let p' := snd (connectRepository env p) in
  localStorage p' = localStorage p
  /\ statusCard p' = statusCard p
  /\ generateDocBtn_disabled p' = generateDocBtn_disabled p
  /\ connectRepoBtn_disabled p' = true
  /\ repoUrlInput_disabled p' = true.
Proof.
  intros Htoken Hid Hreply Hst p'. subst p'.
  rewrite connectRepository_cases. cbv zeta.
  rewrite Htoken, Hid, Hreply. unfold settle.
  assert ((200 <=? st)%Z && (st <? 300)%Z = true) as ->
      by (apply andb_true_iff; split; [apply Z.leb_le | apply Z.ltb_lt]; lia).
  cbn [status]. assert ((st =? 200)%Z = false) as -> by (apply Z.eqb_neq; lia).
  simpl. auto.
Qed.

Lemma connectRepository_other_success_status_witness :
  let env := Fixture.env_of (Response 204%Z {| repo_description := None |}) []
               (Fixture.completion "# Sample") in
  let p := Fixture.page "https://github.com/alice/project" ∅ in
  let p' := snd (connectRepository env p) in
  (200 < 204 < 300)%Z
  /\ localStorage p' = localStorage p
  /\ statusCard p' = statusCard p
  /\ generateDocBtn_disabled p' = generateDocBtn_disabled p
  /\ connectRepoBtn_disabled p' = true
  /\ repoUrlInput_disabled p' = true.
Proof.
  intros env p p'. split; [lia|].
  apply (connectRepository_other_success_status env p
           {| owner := "alice"; repo := "project" |} 204%Z {| repo_description := None |});
    [reflexivity | reflexivity | reflexivity | lia].
Defined.

(** The notification of the [catch] block for a rejected request with a
    response. *)
Lemma connectRepository_catch_status msg st p :
  statusCard (snd (connectRepository_catch (AxiosError msg (Some st)) p))
  = Some ("Error connecting to repository. " +:+
          (if (st =? 401)%Z
           then "Invalid or missing GitHub token. Please check your configuration."
           else if (st =? 404)%Z then "Repository not found or private."
           else if truthy msg then msg else "Please check the URL and try again."), error).
Proof.
  destruct st as [|q|q]; try reflexivity.
  do 9 (destruct q as [q|q|]; try reflexivity).
Qed.

(** X6. What the notification of a failed connect says: for a lookup
    answered with 401 or 404 a fixed text about the token or the repository,
    for any other rejected status the message of the request error, and for
    a missing token its own message, with no request sent. *)
Theorem connectRepository_error_message env p :
  (configured (VITE_GITHUB_TOKEN env) = false ->
   statusCard (snd (connectRepository env p))
   = Some ("Error connecting to repository. GitHub token is not configured", error)
   /\ requests (snd (connectRepository env p)) = requests p)
  /\ (forall id st d,
         configured (VITE_GITHUB_TOKEN env) = true ->
         extract_identity (repoUrlInput_value p) = inr id ->
         github_repos env (owner id) (repo id) = Response st d ->
         (st < 200 \/ 300 <= st)%Z ->
         statusCard (snd (connectRepository env p))
         = Some ("Error connecting to repository. " +:+
                 (if (st =? 401)%Z
                  then "Invalid or missing GitHub token. Please check your configuration."
                  else if (st =? 404)%Z then "Repository not found or private."
                  else "Request failed with status code " +:+ pretty st), error)).
Proof.
  split.
  - intros Htoken. rewrite connectRepository_cases. cbv zeta. rewrite Htoken.
    split; reflexivity.
  - intros id st d Htoken Hid Hreply Hst.
    rewrite connectRepository_cases. cbv zeta.
    rewrite Htoken, Hid, Hreply. unfold settle.
    assert ((200 <=? st)%Z && (st <? 300)%Z = false) as ->.
    { apply andb_false_iff.
      destruct Hst; [left; apply Z.leb_gt | right; apply Z.ltb_ge]; lia. }
    rewrite connectRepository_catch_status. reflexivity.
Qed.

Lemma connectRepository_error_message_witness :
  let env := Fixture.env_of (Response 401%Z {| repo_description := None |}) []
               (Fixture.completion "# Sample") in
  let p := Fixture.page "https://github.com/alice/project" ∅ in
  (401 < 200 \/ 300 <= 401)%Z
  /\ statusCard (snd (connectRepository env p))
     = Some ("Error connecting to repository. Invalid or missing GitHub token. Please check your configuration.", error).
Proof.
  intros env p. split; [lia|].
  apply (proj2 (connectRepository_error_message env p)
           {| owner := "alice"; repo := "project" |} 401%Z {| repo_description := None |});
    [reflexivity | reflexivity | reflexivity | lia].
Defined.

(** ** The identity, stored and shown again *)

Lemma append_empty_l (s : string) : "" +:+ s = s.
Proof. reflexivity. Qed.

(** What the pattern captures are two path segments. *)
Lemma extract_identity_is_segment (s : string) (id : RepositoryIdentity) :
  extract_identity s = inr id ->
  is_segment (owner id) = true /\ is_segment (repo id) = true.
Proof.
  intros H. apply extract_identity_regex, regex_match_shape in H
    as (pre & rest & (_ & Ho & Hr & _) & _).
  auto.
Qed.

(** The URL written for a saved identity parses back to it. *)
Lemma saved_url_parses (id : RepositoryIdentity) :
  is_segment (owner id) = true ->
  is_segment (repo id) = true ->
  extract_identity (saved_url id) = inr id.
Proof.
  intros Ho Hr. destruct id as [o r]. cbn [owner repo] in *.
  apply extract_identity_regex, regex_match_shape. cbn [owner repo].
  exists "https://", "". split.
  - split; [|auto]. unfold saved_url. cbn [owner repo].
    now rewrite append_empty_r, <- append_assoc.
  - intros pre' o' r' rest' (H & _). unfold saved_url in H. cbn [owner repo] in H.
    do 8 (destruct pre' as [|? pre'];
          [exfalso; repeat rewrite ?append_cons, ?append_empty_l in H; discriminate H|]).
    simpl. lia.
Qed.

(** X7. The cached identity keeps its invariant.  What the connect flow
    parses from the input are two non-empty texts without a slash; so if the
    slot [currentRepo] holds such an identity (or nothing) before a connect,
    it holds such an identity (or nothing) after it, whatever the outcome. *)
Theorem connectRepository_keeps_identity_invariant env p :
  (forall id, localStorage p !! "currentRepo" = Some id ->
              is_segment (owner id) = true /\ is_segment (repo id) = true) ->
  forall id, localStorage (snd (connectRepository env p)) !! "currentRepo" = Some id ->
             is_segment (owner id) = true /\ is_segment (repo id) = true.
Proof.
  intros Hinv id. rewrite connectRepository_cases. cbv zeta.
  destruct (configured (VITE_GITHUB_TOKEN env)); [|apply Hinv].
  destruct (extract_identity (repoUrlInput_value p)) as [e|id'] eqn:Hid; [apply Hinv|].
  destruct (settle (github_repos env (owner id') (repo id'))) as [response|e|];
    [|apply Hinv|apply Hinv].
  destruct (status response =? 200)%Z; [|apply Hinv].
  cbn [snd localStorage Page.set_statusCard Page.set_generateDocBtn_disabled
         Page.set_localStorage].
  rewrite lookup_insert_eq. intros [= <-].
  now apply extract_identity_is_segment in Hid.
Qed.

Lemma connectRepository_keeps_identity_invariant_witness :
  let p := Fixture.page "https://github.com/alice/project" ∅ in
  let id := {| owner := "alice"; repo := "project" |} in
  localStorage (snd (connectRepository Fixture.two_levels p)) !! "currentRepo" = Some id
  /\ is_segment (owner id) = true /\ is_segment (repo id) = true.
Proof.
  intros p id. split; [reflexivity|].
  apply (connectRepository_keeps_identity_invariant Fixture.two_levels p).
  - intros id' H. vm_compute in H. discriminate H.
  - reflexivity.
Defined.

(** X8. The start of the page.  With a saved identity (two path segments)
    the generate button is enabled and the input shows a URL that parses
    back to exactly that identity; without one the generate button is
    disabled and the input is left alone.  The storage is only read. *)
Theorem initialize_saved_identity p :
  localStorage (initialize p) = localStorage p
  /\ match localStorage p !! "currentRepo" with
     | Some id =>
         generateDocBtn_disabled (initialize p) = false
         /\ repoUrlInput_value (initialize p) = saved_url id
         /\ (is_segment (owner id) = true ->
             is_segment (repo id) = true ->
             extract_identity (repoUrlInput_value (initialize p)) = inr id)
     | None =>
         generateDocBtn_disabled (initialize p) = true
         /\ repoUrlInput_value (initialize p) = repoUrlInput_value p
     end.
Proof.
  unfold initialize. cbn [localStorage Page.set_generateDocBtn_disabled].
  destruct (localStorage p !! "currentRepo") as [id|]; cbn.
  - repeat split; try reflexivity. apply saved_url_parses.
  - repeat split; reflexivity.
Qed.

Lemma initialize_saved_identity_witness :
  let id := {| owner := "alice"; repo := "project" |} in
  let p := Fixture.page "" {[ "currentRepo" := id ]} in
  extract_identity (repoUrlInput_value (initialize p)) = inr id.
Proof.
  intros id p.
  pose proof (proj2 (initialize_saved_identity p)) as H.
  change (localStorage p !! "currentRepo") with (Some id) in H.
  exact (proj2 (proj2 H) eq_refl eq_refl).
Defined.

(** X9. Connect, then load the page again: after a connect answered with
    200, the start of the page enables the generate button and fills the
    input with a URL from which a second connect parses the same owner and
    repository. *)
Theorem connect_then_reload env p id d :
  configured (VITE_GITHUB_TOKEN env) = true ->
  extract_identity (repoUrlInput_value p) = inr id ->
  github_repos env (owner id) (repo id) = Response 200%Z d ->
  let reloaded := initialize (snd (connectRepository env p)) in
  generateDocBtn_disabled reloaded = false
  /\ extract_identity (repoUrlInput_value reloaded) = inr id
  /\ localStorage reloaded !! "currentRepo" = Some id.
Proof.
  intros Htoken Hid Hreply reloaded. subst reloaded.
  assert (localStorage (snd (connectRepository env p)) !! "currentRepo" = Some id) as Hs.
  { rewrite connectRepository_cases. cbv zeta.
    rewrite Htoken, Hid, Hreply, settle_200. cbn. apply lookup_insert_eq. }
  unfold initialize. cbn [localStorage Page.set_generateDocBtn_disabled].
  rewrite Hs. cbn.
  destruct (extract_identity_is_segment _ _ Hid) as [Ho Hr].
  repeat split; [now apply saved_url_parses | exact Hs].
Qed.

Lemma connect_then_reload_witness :
  let id := {| owner := "alice"; repo := "project" |} in
  let p := Fixture.page "see github.com/alice/project/issues" ∅ in
  let reloaded := initialize (snd (connectRepository Fixture.two_levels p)) in
  extract_identity (repoUrlInput_value p) = inr id
  /\ generateDocBtn_disabled reloaded = false
  /\ extract_identity (repoUrlInput_value reloaded) = inr id
  /\ localStorage reloaded !! "currentRepo" = Some id.
Proof.
  intros id p reloaded. split; [reflexivity|].
  apply (connect_then_reload Fixture.two_levels p id
           {| repo_description := Some "A sample repository" |}); reflexivity.
Defined.

(** ** The comparator and the cut to five files *)

Lemma priorityIndex_values (f : SourceFile.t) :
  priorityIndex f = (-1)%Z \/ priorityIndex f = 0%Z
  \/ priorityIndex f = 1%Z \/ priorityIndex f = 2%Z.
Proof. destruct (priorityIndex_range f); lia. Qed.

Lemma compareFiles_priorityIndex (a b : SourceFile.t) :
  compareFiles a b =
  if negb (priorityIndex a =? -1)%Z && negb (priorityIndex b =? -1)%Z
  then (priorityIndex a - priorityIndex b)%Z
  else if negb (priorityIndex a =? -1)%Z then (-1)%Z
  else if negb (priorityIndex b =? -1)%Z then 1%Z
  else 0%Z.
Proof. reflexivity. Qed.

(** X10. The comparator given to [sort] is consistent, as the language
    requires for the result of the sort to be defined: a file compares equal
    to itself, swapping the arguments swaps the sign, and both [before] and
    [equal] are transitive. *)
Theorem compareFiles_consistent (a b c : SourceFile.t) :
  compareFiles a a = 0%Z
  /\ Z.sgn (compareFiles a b) = (- Z.sgn (compareFiles b a))%Z
  /\ ((compareFiles a b < 0)%Z -> (compareFiles b c < 0)%Z -> (compareFiles a c < 0)%Z)
  /\ (compareFiles a b = 0%Z -> compareFiles b c = 0%Z -> compareFiles a c = 0%Z).
Proof.
  rewrite !compareFiles_priorityIndex.
  destruct (priorityIndex_values a) as [-> | [-> | [-> | ->]]],
           (priorityIndex_values b) as [-> | [-> | [-> | ->]]],
           (priorityIndex_values c) as [-> | [-> | [-> | ->]]];
    cbn; repeat split; intros; lia.
Qed.

Lemma StronglySorted_app_inv {A} (R : A -> A -> Prop) (l1 l2 : list A) :
  StronglySorted R (l1 ++ l2) ->
  StronglySorted R l1 /\ forall x y, In x l1 -> In y l2 -> R x y.
Proof.
  induction l1 as [|a l1 IH]; simpl; intros H.
  - split; [constructor | intros ? ? []].
  - apply StronglySorted_inv in H as [Hs Ha]. destruct (IH Hs) as [Hs1 Hcross].
    rewrite List.Forall_forall in Ha. split.
    + constructor; [assumption|]. apply List.Forall_forall.
      intros x Hx. apply Ha, in_or_app. now left.
    + intros x y [<- | Hx] Hy; [apply Ha, in_or_app; now right | now apply Hcross].
Qed.

(** X11. The cut to five keeps the best.  When the walk under [src]
    collects the files [all], the selector returns a sequence in priority
    order, and the files it leaves out are files that every returned file
    may precede: returned and left out together are [all].  With five files
    or fewer nothing is left out. *)
Theorem getMainSourceFiles_keeps_the_best env fuel owner repo srcContents all :
  Net.outcome (getRepositoryContents env owner repo "src") = Val srcContents ->
  Net.outcome (getFilesFromDirectory env fuel owner repo srcContents) = Val all ->
  exists selected dropped,
    Net.outcome (getMainSourceFiles env fuel owner repo) = Val selected
    /\ Permutation all (selected ++ dropped)
    /\ StronglySorted may_precede selected
    /\ (forall f g, In f selected -> In g dropped -> may_precede f g)
    /\ (length all <= 5 -> dropped = []).
Proof.
  intros Hsrc Hall.
  exists (firstn 5 (sort compareFiles all)), (skipn 5 (sort compareFiles all)).
  pose proof (sort_StronglySorted all) as Hsorted.
  rewrite <- (firstn_skipn 5 (sort compareFiles all)) in Hsorted.
  apply StronglySorted_app_inv in Hsorted as [Hs Hcross].
  split; [now rewrite outcome_getMainSourceFiles, Hsrc, Hall|].
  split; [rewrite firstn_skipn; apply sort_Permutation|].
  split; [assumption|]. split; [assumption|].
  intros Hlen. apply skipn_all2.
  rewrite <- (Permutation_length (sort_Permutation all)). exact Hlen.
Qed.

Lemma getMainSourceFiles_keeps_the_best_witness :
  exists selected dropped,
    Net.outcome (getMainSourceFiles Fixture.two_levels 2 "o" "r") = Val selected
    /\ Permutation
         [ Fixture.source "src/a.js" "a"; Fixture.source "src/components/App.jsx" "App";
           Fixture.source "src/components/Button.jsx" "Button";
           Fixture.source "src/b.ts" "b"; Fixture.source "src/index.js" "index";
           Fixture.source "src/c.tsx" "c" ]
         (selected ++ dropped)
    /\ StronglySorted may_precede selected
    /\ (forall f g, In f selected -> In g dropped -> may_precede f g)
    /\ (6 <= 5 -> dropped = []).
Proof.
  apply (getMainSourceFiles_keeps_the_best Fixture.two_levels 2 "o" "r"
           (Listing
              [ Fixture.file "src" "a.js"; Fixture.file "src" "gone.js";
                Fixture.dir "src" "components"; Fixture.dir "src" "locked";
                Fixture.file "src" "b.ts"; Fixture.file "src" "index.js";
                Fixture.file "src" "notes.md"; Fixture.file "src" "c.tsx" ]));
    reflexivity.
Defined.

(** ** The walk *)

(** What holds of the accumulator before the loop and is kept by every
    turn that returns, holds of what the loop returns. *)
Lemma for_of_invariant {A B} (P : B -> Prop) (xs : list A) (body : A -> B -> Net.t B) :
  (forall x acc acc', P acc -> Net.outcome (body x acc) = Val acc' -> P acc') ->
  forall acc r, P acc -> Net.outcome (Net.for_of xs body acc) = Val r -> P r.
Proof.
  intros Hbody. induction xs as [|x xs IH]; intros acc r Hacc; simpl.
  - now intros [= <-].
  - rewrite outcome_bind. destruct (Net.outcome (body x acc)) as [acc'|e|] eqn:E;
      try discriminate.
    apply IH. eapply Hbody; eauto.
Qed.

Lemma visit_fetched env owner repo recurse item files files' :
  (forall sub fs, Net.outcome (recurse sub) = Val fs ->
                  List.Forall (fetched env owner repo) fs) ->
  List.Forall (fetched env owner repo) files ->
  Net.outcome (visit env owner repo recurse item files) = Val files' ->
  List.Forall (fetched env owner repo) files'.
Proof.
  intros Hrec Hfiles. unfold visit.
  destruct (String.eqb (Item.type item) "file").
  - destruct (admitted (Item.name item)); [|now intros [= <-]].
    rewrite outcome_try_catch, outcome_bind.
    destruct (Net.outcome (getFileContent env owner repo (Item.path item)))
      as [text|e|] eqn:E; [|now intros [= <-]|discriminate].
    intros [= <-]. apply List.Forall_app. split; [assumption|].
    constructor; [exact E | constructor].
  - destruct (String.eqb (Item.type item) "dir"); [|now intros [= <-]].
    rewrite outcome_try_catch, outcome_bind.
    destruct (Net.outcome (getRepositoryContents env owner repo (Item.path item)))
      as [sub|e|]; [|now intros [= <-]|discriminate].
    rewrite outcome_bind.
    destruct (Net.outcome (recurse sub)) as [fs|e|] eqn:E;
      [|now intros [= <-]|discriminate].
    intros [= <-]. apply List.Forall_app. split; [assumption|]. eapply Hrec, E.
Qed.

Lemma getFilesFromDirectory_fetched env owner repo fuel contents files :
  Net.outcome (getFilesFromDirectory env fuel owner repo contents) = Val files ->
  List.Forall (fetched env owner repo) files.
Proof.
  revert contents files. induction fuel as [|fuel IH]; intros contents files;
    [discriminate|].
  destruct contents as [items|b]; [|discriminate].
  rewrite getFilesFromDirectory_S.
  apply (for_of_invariant (List.Forall (fetched env owner repo))); [|constructor].
  intros item acc acc' Hacc. now apply visit_fetched.
Qed.

(** X12. Every file the selector returns carries the body that the
    contents API gives for its path: paths and bodies are never mixed up,
    whatever fails around them. *)
Theorem getMainSourceFiles_fetched env fuel owner repo files :
  Net.outcome (getMainSourceFiles env fuel owner repo) = Val files ->
  forall f, In f files ->
    Net.outcome (getFileContent env owner repo (SourceFile.path f))
    = Val (SourceFile.content f).
Proof.
  rewrite outcome_getMainSourceFiles.
  destruct (Net.outcome (getRepositoryContents env owner repo "src"))
    as [srcContents|e|]; [| |discriminate].
  - destruct (Net.outcome (getFilesFromDirectory env fuel owner repo srcContents))
      as [all|e|] eqn:E; try discriminate.
    intros [= <-] f Hf. apply getFilesFromDirectory_fetched in E.
    rewrite List.Forall_forall in E. apply E.
    apply (Permutation_in f (Permutation_sym (sort_Permutation all))).
    rewrite <- (firstn_skipn 5 (sort compareFiles all)). apply in_or_app. now left.
  - intros [= <-] f [].
Qed.

Lemma getMainSourceFiles_fetched_witness :
  Net.outcome (getFileContent Fixture.two_levels "o" "r" "src/components/App.jsx")
  = Val "App".
Proof.
  apply (getMainSourceFiles_fetched Fixture.two_levels 2 "o" "r"
           Fixture.two_levels_selected eq_refl
           (Fixture.source "src/components/App.jsx" "App")).
  right. left. reflexivity.
Defined.

(** A turn of the loop appends to the files collected so far and does not
    look at them. *)
Lemma visit_appends env owner repo recurse item files :
  Net.outcome (visit env owner repo recurse item files) =
  match Net.outcome (visit env owner repo recurse item []) with
  | Val added => Val (files ++ added)
  | Exn e => Exn e
  | OutOfFuel => OutOfFuel
  end.
Proof.
  unfold visit.
  destruct (String.eqb (Item.type item) "file").
  - destruct (admitted (Item.name item)); [|simpl; now rewrite app_nil_r].
    rewrite !outcome_try_catch, !outcome_bind.
    destruct (Net.outcome (getFileContent env owner repo (Item.path item)));
      simpl; now rewrite ?app_nil_r.
  - destruct (String.eqb (Item.type item) "dir"); [|simpl; now rewrite app_nil_r].
    rewrite !outcome_try_catch, !outcome_bind.
    destruct (Net.outcome (getRepositoryContents env owner repo (Item.path item)));
      simpl; rewrite ?app_nil_r; try reflexivity.
    rewrite !outcome_bind. destruct (Net.outcome (recurse a)); simpl;
      now rewrite ?app_nil_r.
Qed.

Lemma for_of_visit_appends env owner repo recurse items files :
  Net.outcome (Net.for_of items (visit env owner repo recurse) files) =
  match Net.outcome (Net.for_of items (visit env owner repo recurse) []) with
  | Val added => Val (files ++ added)
  | Exn e => Exn e
  | OutOfFuel => OutOfFuel
  end.
Proof.
  revert files. induction items as [|item items IH]; intros files; simpl.
  - now rewrite app_nil_r.
  - rewrite !outcome_bind, (visit_appends _ _ _ _ _ files).
    destruct (Net.outcome (visit env owner repo recurse item [])) as [added|e|];
      try reflexivity.
    rewrite (IH (files ++ added)), (IH added).
    destruct (Net.outcome (Net.for_of items (visit env owner repo recurse) []));
      try reflexivity.
    now rewrite app_assoc.
Qed.

(** X13. The walk goes through a listing in order and depth first: the
    files of a listing are the files of its first part followed by the
    files of the rest. *)
Theorem getFilesFromDirectory_app env owner repo fuel items1 items2 files1 files2 :
  Net.outcome (getFilesFromDirectory env (S fuel) owner repo (Listing items1))
  = Val files1 ->
  Net.outcome (getFilesFromDirectory env (S fuel) owner repo (Listing items2))
  = Val files2 ->
  Net.outcome (getFilesFromDirectory env (S fuel) owner repo (Listing (items1 ++ items2)))
  = Val (files1 ++ files2).
Proof.
  rewrite !getFilesFromDirectory_S, outcome_for_of_app.
  intros -> H2. now rewrite for_of_visit_appends, H2.
Qed.

Lemma getFilesFromDirectory_app_witness :
  Net.outcome
    (getFilesFromDirectory Fixture.two_levels 2 "o" "r"
       (Listing ([ Fixture.file "src" "a.js"; Fixture.dir "src" "components" ]
                 ++ [ Fixture.file "src" "b.ts" ])))
  = Val ([ Fixture.source "src/a.js" "a"; Fixture.source "src/components/App.jsx" "App";
           Fixture.source "src/components/Button.jsx" "Button" ]
         ++ [ Fixture.source "src/b.ts" "b" ]).
Proof.
  apply (getFilesFromDirectory_app Fixture.two_levels "o" "r" 1); reflexivity.
Defined.

(** ** The requests of the structure fetch and of the generator *)

Lemma issued_getFileContent env owner repo path :
  Net.issued (getFileContent env owner repo path) = [GetContents owner repo path].
Proof.
  unfold getFileContent, axios_get_contents.
  destruct (settle (github_contents env owner repo path)) as [response|e|];
    try reflexivity.
  simpl. now destruct (atob env _).
Qed.

(** X15. The structure fetch asks for the repository first; when that
    request is rejected it asks nothing more, and when it is fulfilled it
    asks for [package.json] and then for [README.md], each exactly once,
    whatever the answer to the other. *)
Theorem getRepositoryStructure_requests env owner repo :
  Net.issued (getRepositoryStructure env owner repo) =
  GetRepo owner repo ::
  match settle (github_repos env owner repo) with
  | Val _ => [GetContents owner repo "package.json"; GetContents owner repo "README.md"]
  | _ => []
  end.
Proof.
  unfold getRepositoryStructure.
  rewrite issued_try_catch, outcome_bind, issued_bind.
  unfold axios_get_repo. cbn [Net.outcome Net.issued fst snd].
  destruct (settle (github_repos env owner repo)) as [repoResponse|e|];
    [|reflexivity|reflexivity].
  rewrite outcome_bind, outcome_packageJson, outcome_bind, outcome_readme.
  rewrite issued_bind, outcome_packageJson, issued_bind, outcome_readme.
  rewrite !issued_try_catch, !outcome_bind, !issued_bind, !issued_getFileContent.
  destruct (Net.outcome (getFileContent env owner repo "package.json")) as [text|e|];
    destruct (Net.outcome (getFileContent env owner repo "README.md")) as [text'|e'|];
    try destruct (JSON_parse env text); reflexivity.
Qed.

Lemma completion_requests_only_github {A} (m : Net.t A) :
  only_github m -> completion_requests (Net.issued m) = [].
Proof.
  unfold only_github, completion_requests.
  induction 1 as [|r l Hr _ IH]; [reflexivity|]. simpl. now rewrite Hr.
Qed.

Lemma completion_requests_app (l1 l2 : list Request) :
  completion_requests (l1 ++ l2) = completion_requests l1 ++ completion_requests l2.
Proof. apply List.filter_app. Qed.

Lemma completion_requests_pipeline env fuel repoInfo :
  completion_requests (Net.issued (pipeline env fuel repoInfo)) =
  match Net.outcome (getRepositoryStructure env (owner repoInfo) (repo repoInfo)),
        Net.outcome (getMainSourceFiles env fuel (owner repoInfo) (repo repoInfo)) with
  | Val repoStructure, Val (f :: files) =>
      [PostChatCompletions (Prompt.chat_request env repoInfo repoStructure (f :: files))]
  | _, _ => []
  end.
Proof.
  unfold pipeline.
  pose proof (completion_requests_only_github _
                (only_github_getRepositoryStructure env (owner repoInfo) (repo repoInfo)))
    as Hs.
  pose proof (completion_requests_only_github _
                (only_github_getMainSourceFiles env (owner repoInfo) (repo repoInfo) fuel))
    as Hf.
  rewrite issued_bind.
  destruct (Net.outcome (getRepositoryStructure env (owner repoInfo) (repo repoInfo)))
    as [repoStructure|e|]; [|assumption|assumption].
  rewrite completion_requests_app, Hs, issued_bind. cbn [app].
  destruct (Net.outcome (getMainSourceFiles env fuel (owner repoInfo) (repo repoInfo)))
    as [[|f files]|e|]; try assumption.
  - now rewrite completion_requests_app, Hf, issued_generate.
  - now rewrite completion_requests_app, Hf, issued_generate.
Qed.

(** ** The generate handler *)

(** The handler, case by case. *)
Lemma generateDocumentation_cases env fuel p :
  generateDocumentation env fuel p =
  let p0 := Page.set_loadingIndicator_hidden false
              (Page.set_generateDocBtn_disabled true p) in
  let failed e q :=
    (Val tt, Page.set_loadingIndicator_hidden true (snd (generateDocumentation_catch e q))) in
  if configured (VITE_OPENAI_API_KEY env) then
    match localStorage p !! "currentRepo" with
    | Some repoInfo =>
        let p1 := Page.set_requests
                    (requests p ++ Net.issued (pipeline env fuel repoInfo)) p0 in
        match Net.outcome (pipeline env fuel repoInfo) with
        | Val (JString text) =>
            (Val tt,
             Page.set_loadingIndicator_hidden true
               (Page.set_repoUrlInput_disabled false
                  (Page.set_connectRepoBtn_disabled false
                     (Page.set_generateDocBtn_disabled false
                        (Page.set_statusCard
                           (Some ("Documentation generated successfully!", success))
                           (Page.set_preview (Some text) p1))))))
        | Val documentation => failed (Error (marked_error documentation)) p1
        | Exn e => failed e p1
        | OutOfFuel => (OutOfFuel, Page.set_loadingIndicator_hidden true p1)
        end
    | None => failed (Error "Please connect a repository first") p0
    end
  else failed (Error "OpenAI API key is not configured") p0.
Proof.
  rewrite generateDocumentation_unfold. cbv zeta.
  destruct (configured (VITE_OPENAI_API_KEY env)) eqn:Hkey.
  - destruct (localStorage p !! "currentRepo") as [repoInfo|] eqn:Hstored.
    + rewrite (generateDocumentation_try_pipeline env fuel repoInfo) by assumption.
      unfold M.bind, M.await.
      destruct (pipeline env fuel repoInfo) as [[documentation|e|] log];
        cbn [Net.outcome Net.issued fst snd]; try reflexivity.
      now destruct documentation.
    + unfold generateDocumentation_try. rewrite Hkey. cbn [negb].
      unfold M.bind at 1. cbn [M.ret]. unfold M.bind at 1. unfold getItem, M.read.
      cbn [localStorage Page.set_loadingIndicator_hidden Page.set_generateDocBtn_disabled].
      rewrite Hstored. reflexivity.
  - unfold generateDocumentation_try. rewrite Hkey. reflexivity.
Qed.

(** X16. However a run of the generate handler goes, it hides the loading
    indicator again, writes nothing to the storage and leaves the text of
    the input alone; and unless the model runs out of fuel, the promise is
    fulfilled and the generate button is enabled again. *)
Theorem generateDocumentation_always env fuel p :
  let run := generateDocumentation env fuel p in
  loadingIndicator_hidden (snd run) = true
  /\ localStorage (snd run) = localStorage p
  /\ repoUrlInput_value (snd run) = repoUrlInput_value p
  /\ (fst run = Val tt /\ generateDocBtn_disabled (snd run) = false
      \/ fst run = OutOfFuel).
Proof.
  intros run. subst run.
  rewrite (generateDocumentation_cases env fuel p). cbv zeta.
  destruct (configured (VITE_OPENAI_API_KEY env)); [|cbn; intuition auto].
  destruct (localStorage p !! "currentRepo") as [repoInfo|]; [|cbn; intuition auto].
  destruct (Net.outcome (pipeline env fuel repoInfo)) as [documentation|e|];
    [destruct documentation| |]; cbn; intuition auto.
Qed.

Lemma stage_throws_pipeline env fuel repoInfo e :
  stage_throws env fuel repoInfo e -> Net.outcome (pipeline env fuel repoInfo) = Exn e.
Proof.
  unfold stage_throws, pipeline. rewrite outcome_bind.
  intros [-> | (st & -> & [H | (files & H & Hg)])]; [reflexivity| |];
    rewrite outcome_bind, H; [reflexivity | exact Hg].
Qed.

(** X17. A run in which the structure fetch, the selector or the generator
    throws shows the message of that error (or a default text when it has
    none) as an error notification, enables the generate button, and leaves
    the preview, the connect button and the input as they were. *)
Theorem generateDocumentation_failure env fuel p repoInfo e :
  configured (VITE_OPENAI_API_KEY env) = true ->
  localStorage p !! "currentRepo" = Some repoInfo ->
  stage_throws env fuel repoInfo e ->
  let run := generateDocumentation env fuel p in
  fst run = Val tt
  /\ statusCard (snd run)
     = Some (if truthy (message e) then message e
             else "Error generating documentation. Please try again.", error)
  /\ generateDocBtn_disabled (snd run) = false
  /\ preview (snd run) = preview p
  /\ connectRepoBtn_disabled (snd run) = connectRepoBtn_disabled p
  /\ repoUrlInput_disabled (snd run) = repoUrlInput_disabled p.
Proof.
  intros Hkey Hstored He run. subst run.
  rewrite (generateDocumentation_cases env fuel p). cbv zeta.
  rewrite Hkey, Hstored, (stage_throws_pipeline _ _ _ _ He). cbn. auto 10.
Qed.

Lemma generateDocumentation_failure_witness :
  let repoInfo := {| owner := "alice"; repo := "project" |} in
  let p := Fixture.page "" {[ "currentRepo" := repoInfo ]} in
  let e := AxiosError "Request failed with status code 404" (Some 404%Z) in
  stage_throws Fixture.missing 1 repoInfo e
  /\ statusCard (snd (generateDocumentation Fixture.missing 1 p))
     = Some ("Request failed with status code 404", error).
Proof.
  intros repoInfo p e.
  assert (stage_throws Fixture.missing 1 repoInfo e) as He by (left; reflexivity).
  split; [exact He|].
  destruct (generateDocumentation_failure Fixture.missing 1 p repoInfo e
              eq_refl eq_refl He) as (_ & H & _).
  exact H.
Defined.

(** X18. No retry, no second call: the requests of a run of the generate
    handler contain exactly one completion request when the key is set, an
    identity is stored, the structure was fetched and the selector returned
    at least one file; it carries the prompt for that structure and those
    files, whatever the endpoint answers.  Every other run sends none. *)
Theorem generateDocumentation_one_completion_request env fuel p :
  exists issued,
    requests (snd (generateDocumentation env fuel p)) = requests p ++ issued
    /\ completion_requests issued =
       if configured (VITE_OPENAI_API_KEY env) then
         match localStorage p !! "currentRepo" with
         | Some repoInfo =>
             match
               Net.outcome (getRepositoryStructure env (owner repoInfo) (repo repoInfo)),
               Net.outcome (getMainSourceFiles env fuel (owner repoInfo) (repo repoInfo))
             with
             | Val repoStructure, Val (f :: files) =>
                 [PostChatCompletions
                    (Prompt.chat_request env repoInfo repoStructure (f :: files))]
             | _, _ => []
             end
         | None => []
         end
       else [].
Proof.
  rewrite (generateDocumentation_cases env fuel p). cbv zeta.
  destruct (configured (VITE_OPENAI_API_KEY env));
    [|exists []; split; [cbn; now rewrite app_nil_r | reflexivity]].
  destruct (localStorage p !! "currentRepo") as [repoInfo|];
    [|exists []; split; [cbn; now rewrite app_nil_r | reflexivity]].
  exists (Net.issued (pipeline env fuel repoInfo)).
  split; [|apply completion_requests_pipeline].
  destruct (Net.outcome (pipeline env fuel repoInfo)) as [documentation|e|];
    [destruct documentation| |]; reflexivity.
Qed.

(** X19. The text of the first choice is shown verbatim.  When the
    endpoint answers with a fulfilled status and the content of the first
    choice is a text, the run puts exactly that text on display, shows the
    success notification and enables the generate button, the connect button
    and the input. *)
Theorem generateDocumentation_success env fuel p repoInfo repoStructure f files
    response text :
  configured (VITE_OPENAI_API_KEY env) = true ->
  localStorage p !! "currentRepo" = Some repoInfo ->
  Net.outcome (getRepositoryStructure env (owner repoInfo) (repo repoInfo))
  = Val repoStructure ->
  Net.outcome (getMainSourceFiles env fuel (owner repoInfo) (repo repoInfo))
  = Val (f :: files) ->
  settle (openai_chat_completions env
            (Prompt.chat_request env repoInfo repoStructure (f :: files)))
  = Val response ->
  first_choice_content (data response) = inr (JString text) ->
  let run := generateDocumentation env fuel p in
  fst run = Val tt
  /\ preview (snd run) = Some text
  /\ statusCard (snd run) = Some ("Documentation generated successfully!", success)
  /\ generateDocBtn_disabled (snd run) = false
  /\ connectRepoBtn_disabled (snd run) = false
  /\ repoUrlInput_disabled (snd run) = false.
Proof.
  intros Hkey Hstored Hs Hf Hreply Hchoice run. subst run.
  assert (Net.outcome (pipeline env fuel repoInfo) = Val (JString text)) as Hp.
  { unfold pipeline. rewrite outcome_bind, Hs, outcome_bind, Hf.
    unfold generate. cbn [length Nat.eqb]. rewrite outcome_bind.
    unfold axios_post_chat. cbn [Net.outcome fst]. now rewrite Hreply, Hchoice. }
  rewrite (generateDocumentation_cases env fuel p). cbv zeta.
  rewrite Hkey, Hstored, Hp. cbn. auto 10.
Qed.

Lemma generateDocumentation_success_witness :
  let repoInfo := {| owner := "alice"; repo := "project" |} in
  let p := Fixture.page "" {[ "currentRepo" := repoInfo ]} in
  let run := generateDocumentation Fixture.two_levels 2 p in
  first_choice_content
    (JObject [("choices",
               JArray [JObject [("message", JObject [("content", JString "# Sample")])]])])
  = inr (JString "# Sample")
  /\ fst run = Val tt
  /\ preview (snd run) = Some "# Sample"
  /\ statusCard (snd run) = Some ("Documentation generated successfully!", success)
  /\ generateDocBtn_disabled (snd run) = false
  /\ connectRepoBtn_disabled (snd run) = false
  /\ repoUrlInput_disabled (snd run) = false.
Proof.
  intros repoInfo p run. split; [reflexivity|].
  apply (generateDocumentation_success Fixture.two_levels 2 p repoInfo
           Fixture.two_levels_structure
           (Fixture.source "src/index.js" "index")
           (List.tl Fixture.two_levels_selected)
           {| status := 200%Z;
              data := JObject [("choices",
                        JArray [JObject [("message",
                                          JObject [("content", JString "# Sample")])]])] |}
           "# Sample"); reflexivity.
Defined.

(** X20. A completion request that is rejected (no answer, or a status
    outside 200 to 299) ends the run with the message of the request error
    as an error notification and nothing new on display. *)
Theorem generateDocumentation_completion_rejected env fuel p repoInfo repoStructure
    f files e :
  configured (VITE_OPENAI_API_KEY env) = true ->
  localStorage p !! "currentRepo" = Some repoInfo ->
  Net.outcome (getRepositoryStructure env (owner repoInfo) (repo repoInfo))
  = Val repoStructure ->
  Net.outcome (getMainSourceFiles env fuel (owner repoInfo) (repo repoInfo))
  = Val (f :: files) ->
  settle (openai_chat_completions env
            (Prompt.chat_request env repoInfo repoStructure (f :: files)))
  = Exn e ->
  let run := generateDocumentation env fuel p in
  fst run = Val tt
  /\ preview (snd run) = preview p
  /\ statusCard (snd run)
     = Some (if truthy (message e) then message e
             else "Error generating documentation. Please try again.", error)
  /\ generateDocBtn_disabled (snd run) = false.
Proof.
  intros Hkey Hstored Hs Hf Hreply run. subst run.
  assert (Net.outcome (pipeline env fuel repoInfo) = Exn e) as Hp.
  { unfold pipeline. rewrite outcome_bind, Hs, outcome_bind, Hf.
    unfold generate. cbn [length Nat.eqb]. rewrite outcome_bind.
    unfold axios_post_chat. cbn [Net.outcome fst]. now rewrite Hreply. }
  rewrite (generateDocumentation_cases env fuel p). cbv zeta.
  rewrite Hkey, Hstored, Hp. cbn. auto 10.
Qed.

Lemma generateDocumentation_completion_rejected_witness :
  let env := Fixture.env_of Fixture.found Fixture.two_levels_tree
               (Response 429%Z JNull) in
  let repoInfo := {| owner := "alice"; repo := "project" |} in
  let p := Fixture.page "" {[ "currentRepo" := repoInfo ]} in
  let run := generateDocumentation env 2 p in
  fst run = Val tt
  /\ preview (snd run) = preview p
  /\ statusCard (snd run) = Some ("Request failed with status code 429", error)
  /\ generateDocBtn_disabled (snd run) = false.
Proof.
  intros env repoInfo p run.
  apply (generateDocumentation_completion_rejected env 2 p repoInfo
           Fixture.two_levels_structure
           (Fixture.source "src/index.js" "index")
           (List.tl Fixture.two_levels_selected)
           (AxiosError "Request failed with status code 429" (Some 429%Z)));
    reflexivity.
Defined.

(** X21. Without the key, and without a stored identity, the generate
    handler stops before its first request: it sends nothing and shows
    [OpenAI API key is not configured], respectively
    [Please connect a repository first]. *)
Theorem generateDocumentation_not_ready env fuel p :
  (configured (VITE_OPENAI_API_KEY env) = false ->
   requests (snd (generateDocumentation env fuel p)) = requests p
   /\ statusCard (snd (generateDocumentation env fuel p))
      = Some ("OpenAI API key is not configured", error))
  /\ (configured (VITE_OPENAI_API_KEY env) = true ->
      localStorage p !! "currentRepo" = None ->
      requests (snd (generateDocumentation env fuel p)) = requests p
      /\ statusCard (snd (generateDocumentation env fuel p))
         = Some ("Please connect a repository first", error)).
Proof.
  split.
  - intros Hkey. rewrite (generateDocumentation_cases env fuel p). cbv zeta.
    rewrite Hkey. split; reflexivity.
  - intros Hkey Hstored. rewrite (generateDocumentation_cases env fuel p). cbv zeta.
    rewrite Hkey, Hstored. split; reflexivity.
Qed.

Lemma generateDocumentation_not_ready_witness :
  let p := Fixture.page "" ∅ in
  requests (snd (generateDocumentation Fixture.two_levels 2 p)) = requests p
  /\ statusCard (snd (generateDocumentation Fixture.two_levels 2 p))
     = Some ("Please connect a repository first", error).
Proof.
  intros p.
  apply (proj2 (generateDocumentation_not_ready Fixture.two_levels 2 p)); reflexivity.
Defined.

(** X22. The repository lookup of the generate flow is mandatory: when
    it is rejected the run sends that one request and nothing else (the two
    files, the tree under [src] and the completion endpoint are never asked)
    and shows the message of the rejection. *)
Theorem generateDocumentation_lookup_rejected env fuel p repoInfo e :
  configured (VITE_OPENAI_API_KEY env) = true ->
  localStorage p !! "currentRepo" = Some repoInfo ->
  settle (github_repos env (owner repoInfo) (repo repoInfo)) = Exn e ->
  let run := generateDocumentation env fuel p in
  requests (snd run) = requests p ++ [GetRepo (owner repoInfo) (repo repoInfo)]
  /\ statusCard (snd run)
     = Some (if truthy (message e) then message e
             else "Error generating documentation. Please try again.", error)
  /\ preview (snd run) = preview p.
Proof.
  intros Hkey Hstored He run. subst run.
  assert (getRepositoryStructure env (owner repoInfo) (repo repoInfo)
          = (Exn e, [GetRepo (owner repoInfo) (repo repoInfo)])) as Hs.
  { unfold getRepositoryStructure, axios_get_repo. now rewrite He. }
  assert (pipeline env fuel repoInfo = (Exn e, [GetRepo (owner repoInfo) (repo repoInfo)]))
    as Hp.
  { unfold pipeline. now rewrite Hs. }
  rewrite (generateDocumentation_cases env fuel p). cbv zeta.
  rewrite Hkey, Hstored, Hp. cbn. auto.
Qed.

Lemma generateDocumentation_lookup_rejected_witness :
  let repoInfo := {| owner := "alice"; repo := "project" |} in
  let p := Fixture.page "" {[ "currentRepo" := repoInfo ]} in
  let run := generateDocumentation Fixture.missing 2 p in
  requests (snd run) = requests p ++ [GetRepo "alice" "project"]
  /\ statusCard (snd run) = Some ("Request failed with status code 404", error)
  /\ preview (snd run) = preview p.
Proof.
  intros repoInfo p run.
  apply (generateDocumentation_lookup_rejected Fixture.missing 2 p repoInfo
           (AxiosError "Request failed with status code 404" (Some 404%Z)));
    reflexivity.
Defined.

Lemma issued_pipeline_head env fuel repoInfo :
  exists rest,
    Net.issued (pipeline env fuel repoInfo)
    = GetRepo (owner repoInfo) (repo repoInfo) :: rest.
Proof.
  unfold pipeline, getRepositoryStructure.
  match goal with
  | |- context [Net.bind (Net.try_catch (Net.bind ?m ?k) ?h) ?k'] =>
      destruct (issued_bind_prefix (Net.try_catch (Net.bind m k) h) k') as [rest0 ->];
      destruct (issued_try_catch_prefix (Net.bind m k) h) as [rest1 ->];
      destruct (issued_bind_prefix m k) as [rest2 ->]
  end.
  simpl. eauto.
Qed.

(** X23. Connect, then generate: after a connect answered with 200 the
    generate handler works on the repository that was just connected.  Its
    first request is the lookup of the owner and repository parsed from the
    input, right after the lookup of the connect itself. *)
Theorem connect_then_generate env fuel p id d :
  configured (VITE_GITHUB_TOKEN env) = true ->
  configured (VITE_OPENAI_API_KEY env) = true ->
  extract_identity (repoUrlInput_value p) = inr id ->
  github_repos env (owner id) (repo id) = Response 200%Z d ->
  exists rest,
    requests (snd (generateDocumentation env fuel (snd (connectRepository env p))))
    = requests p
        ++ GetRepo (owner id) (repo id) :: GetRepo (owner id) (repo id) :: rest.
Proof.
  intros Htoken Hkey Hid Hreply.
  assert (localStorage (snd (connectRepository env p)) !! "currentRepo" = Some id
          /\ requests (snd (connectRepository env p))
             = requests p ++ [GetRepo (owner id) (repo id)]) as [Hs Hr].
  { rewrite connectRepository_cases. cbv zeta.
    rewrite Htoken, Hid, Hreply, settle_200. cbn. split; [apply lookup_insert_eq|reflexivity]. }
  destruct (generateDocumentation_run env fuel id _ Hkey Hs) as [Hrun _].
  destruct (issued_pipeline_head env fuel id) as [rest Hrest].
  exists rest. rewrite Hrun, Hr, Hrest, <- app_assoc. reflexivity.
Qed.

Lemma connect_then_generate_witness :
  let p := Fixture.page "https://github.com/alice/project" ∅ in
  exists rest,
    requests (snd (generateDocumentation Fixture.two_levels 2
                     (snd (connectRepository Fixture.two_levels p))))
    = requests p ++ GetRepo "alice" "project" :: GetRepo "alice" "project" :: rest.
Proof.
  intros p.
  apply (connect_then_generate Fixture.two_levels 2 p
           {| owner := "alice"; repo := "project" |}
           {| repo_description := Some "A sample repository" |}); reflexivity.
Defined.

(** ** The prompt and the raw view *)

Lemma Substring_trans (a b c : string) : Substring a b -> Substring b c -> Substring a c.
Proof.
  intros (p1 & q1 & ->) (p2 & q2 & ->).
  exists (p2 +:+ p1), (q1 +:+ q2). now rewrite !append_assoc.
Qed.

Lemma Substring_concat (sep x : string) (xs : list string) :
  In x xs -> Substring x (String.concat sep xs).
Proof.
  induction xs as [|y ys IH]; [intros []|].
  intros Hin. cbn [String.concat]. destruct ys as [|z zs].
  - destruct Hin as [<- | []]. apply Substring_refl.
  - change (y ++ sep ++ String.concat sep (z :: zs))%string
      with (y +:+ sep +:+ String.concat sep (z :: zs)).
    destruct Hin as [<- | Hin].
    + apply Substring_append_r, Substring_refl.
    + do 2 apply Substring_append_l. now apply IH.
Qed.

Lemma Substring_file_block (file : SourceFile.t) :
  Substring (SourceFile.path file) (Prompt.file_block file)
  /\ Substring (SourceFile.content file) (Prompt.file_block file).
Proof.
  unfold Prompt.file_block. split.
  - do 2 apply Substring_append_l. apply Substring_append_r, Substring_refl.
  - do 5 apply Substring_append_l. apply Substring_refl.
Qed.

Lemma Substring_prefix3 (a b c rest : string) :
  Substring (a +:+ b +:+ c) (a +:+ b +:+ c +:+ rest).
Proof. exists "", rest. now rewrite append_empty_l, !append_assoc. Qed.

(** X24. The user message of the request names the repository as
    [owner/repo] and contains, for every file handed to the generator, its
    path and its whole body. *)
Theorem user_content_has_files env repoInfo repoStructure sourceFiles file :
  In file sourceFiles ->
  Substring (owner repoInfo +:+ "/" +:+ repo repoInfo)
    (Prompt.user_content env repoInfo repoStructure sourceFiles)
  /\ Substring (SourceFile.path file)
       (Prompt.user_content env repoInfo repoStructure sourceFiles)
  /\ Substring (SourceFile.content file)
       (Prompt.user_content env repoInfo repoStructure sourceFiles).
Proof.
  intros Hin. split.
  - unfold Prompt.user_content. apply Substring_append_l, Substring_prefix3.
  - assert (Substring (Prompt.file_block file)
              (Prompt.user_content env repoInfo repoStructure sourceFiles)) as Hblock.
    { unfold Prompt.user_content, Prompt.source_files_part.
      do 17 apply Substring_append_l. apply Substring_append_r.
      apply Substring_concat, in_map, Hin. }
    destruct (Substring_file_block file) as [Hp Hc].
    split; eapply Substring_trans; eauto.
Qed.

Lemma user_content_has_files_witness :
  let content :=
    Prompt.user_content Fixture.two_levels {| owner := "alice"; repo := "project" |}
      Fixture.two_levels_structure Fixture.two_levels_selected in
  In (Fixture.source "src/a.js" "a") Fixture.two_levels_selected
  /\ Substring "alice/project" content
  /\ Substring "src/a.js" content
  /\ Substring "a" content.
Proof.
  intros content.
  assert (In (Fixture.source "src/a.js" "a") Fixture.two_levels_selected) as Hin
      by (right; right; left; reflexivity).
  split; [exact Hin|].
  exact (user_content_has_files Fixture.two_levels {| owner := "alice"; repo := "project" |}
           Fixture.two_levels_structure Fixture.two_levels_selected
           (Fixture.source "src/a.js" "a") Hin).
Defined.

Lemma includes_char_cons (c d : ascii) (s : string) :
  includes (String c "") (String d s) = Ascii.eqb c d || includes (String c "") s.
Proof. cbn [includes startsWith]. now destruct (Ascii.eqb c d). Qed.

Lemma includes_char_app (c : ascii) (a b : string) :
  includes (String c "") (a +:+ b) = includes (String c "") a || includes (String c "") b.
Proof.
  induction a as [|d a IH].
  - rewrite append_empty_l. now destruct b.
  - rewrite append_cons, !includes_char_cons, IH. now rewrite orb_assoc.
Qed.

(** Replacing [c] by a text without [c] leaves no [c]. *)
Lemma replaceAll_removes (c : ascii) (by_ s : string) :
  includes (String c "") by_ = false ->
  includes (String c "") (replaceAll c by_ s) = false.
Proof.
  intros Hby. induction s as [|d s IH]; [reflexivity|].
  cbn [replaceAll]. destruct (Ascii.eqb d c) eqn:E.
  - now rewrite includes_char_app, Hby, IH.
  - rewrite includes_char_cons, IH, Ascii.eqb_sym, E. reflexivity.
Qed.

(** Replacing in a text without [d] by a text without [d] brings in no [d]. *)
Lemma replaceAll_keeps_out (c d : ascii) (by_ s : string) :
  includes (String d "") by_ = false ->
  includes (String d "") s = false ->
  includes (String d "") (replaceAll c by_ s) = false.
Proof.
  intros Hby. induction s as [|x s IH]; [reflexivity|].
  rewrite includes_char_cons. intros [Hx Hs]%orb_false_iff.
  cbn [replaceAll]. destruct (Ascii.eqb x c).
  - now rewrite includes_char_app, Hby, IH.
  - now rewrite includes_char_cons, Hx, IH.
Qed.

Lemma replaceAll_absent (c : ascii) (by_ s : string) :
  includes (String c "") s = false -> replaceAll c by_ s = s.
Proof.
  induction s as [|x s IH]; [reflexivity|].
  rewrite includes_char_cons. intros [Hx Hs]%orb_false_iff.
  cbn [replaceAll]. rewrite Ascii.eqb_sym, Hx, IH by assumption. reflexivity.
Qed.

(** X25. The text of the raw view contains neither [<] nor [>], whatever
    the documentation is, so no tag of the generated text reaches the page
    through it; a documentation without these two characters is shown
    unchanged. *)
Theorem escapeRaw_no_angle_brackets (documentation : string) :
  includes "<" (escapeRaw documentation) = false
  /\ includes ">" (escapeRaw documentation) = false
  /\ (includes "<" documentation = false ->
      includes ">" documentation = false ->
      escapeRaw documentation = documentation).
Proof.
  unfold escapeRaw. split; [|split].
  - apply replaceAll_keeps_out; [reflexivity|]. now apply replaceAll_removes.
  - now apply replaceAll_removes.
  - intros Hlt Hgt. rewrite (replaceAll_absent "<") by assumption.
    now apply replaceAll_absent.
Qed.

Lemma escapeRaw_no_angle_brackets_witness :
  escapeRaw "# Title" = "# Title"
  /\ escapeRaw "<details>a > b</details>" = "&lt;details&gt;a &gt; b&lt;/details&gt;".
Proof.
  split; [|reflexivity].
  apply (proj2 (proj2 (escapeRaw_no_angle_brackets "# Title"))); reflexivity.
Defined.

(** ** Entries the walk passes over *)

Lemma bind_ret_l {A B} (a : A) (k : A -> Net.t B) : Net.bind (Net.ret a) k = k a.
Proof. unfold Net.bind, Net.ret. now destruct (k a). Qed.

Lemma bind_assoc {A B C} (m : Net.t A) (k : A -> Net.t B) (k' : B -> Net.t C) :
  Net.bind (Net.bind m k) k' = Net.bind m (fun a => Net.bind (k a) k').
Proof.
  destruct m as [[a|e|] l]; simpl; try reflexivity.
  destruct (k a) as [[b|e|] l']; simpl; try reflexivity.
  destruct (k' b) as [o l'']. now rewrite app_assoc.
Qed.

Lemma bind_ext {A B} (m : Net.t A) (k k' : A -> Net.t B) :
  (forall a, k a = k' a) -> Net.bind m k = Net.bind m k'.
Proof. intros H. destruct m as [[a|e|] l]; simpl; [now rewrite H | reflexivity..]. Qed.

Lemma for_of_app {A B} (xs ys : list A) (body : A -> B -> Net.t B) (acc : B) :
  Net.for_of (xs ++ ys) body acc
  = Net.bind (Net.for_of xs body acc) (Net.for_of ys body).
Proof.
  revert acc. induction xs as [|x xs IH]; intros acc; simpl.
  - symmetry. apply bind_ret_l.
  - rewrite bind_assoc. apply bind_ext, IH.
Qed.

(** X26. Tests, spec files, configuration files, files with another
    extension and entries that are neither files nor directories cost
    nothing: the walk of a listing with such an entry gives the same files
    and sends the same requests as the walk of the listing without it. *)
Theorem getFilesFromDirectory_passes_over env owner repo fuel before item after :
  passed_over item ->
  getFilesFromDirectory env (S fuel) owner repo (Listing (before ++ item :: after))
  = getFilesFromDirectory env (S fuel) owner repo (Listing (before ++ after)).
Proof.
  intros Hitem. rewrite !getFilesFromDirectory_S, !for_of_app.
  apply bind_ext. intros files. cbn [Net.for_of].
  assert (visit env owner repo (getFilesFromDirectory env fuel owner repo) item files
          = Net.ret files) as ->.
  { unfold visit. destruct Hitem as [[-> ->] | [-> ->]]; reflexivity. }
  apply bind_ret_l.
Qed.

Lemma getFilesFromDirectory_passes_over_witness :
  let item := Fixture.file "src" "x.test.js" in
  passed_over item
  /\ getFilesFromDirectory Fixture.two_levels 1 "o" "r"
       (Listing ([ Fixture.file "src" "a.js" ] ++ item :: [ Fixture.file "src" "b.ts" ]))
     = (Val [ Fixture.source "src/a.js" "a"; Fixture.source "src/b.ts" "b" ],
        [ GetContents "o" "r" "src/a.js"; GetContents "o" "r" "src/b.ts" ]).
Proof.
  intros item.
  assert (passed_over item) as Hitem by (right; split; reflexivity).
  split; [exact Hitem|].
  rewrite (getFilesFromDirectory_passes_over Fixture.two_levels "o" "r" 0
             [ Fixture.file "src" "a.js" ] item [ Fixture.file "src" "b.ts" ] Hitem).
  reflexivity.
Defined.

(** ** More on the selector *)

(** X27. When [src] is not a directory (the contents API answers with the
    object of a file), the selector does not return the empty sequence: the
    loop over that object throws, after the one request, and the selector
    rethrows. *)
Theorem getMainSourceFiles_src_not_a_directory env fuel owner repo response base64 :
  settle (github_contents env owner repo "src") = Val response ->
  data response = Envelope base64 ->
  getMainSourceFiles env (S fuel) owner repo
  = (Exn (TypeError "contents is not iterable"), [GetContents owner repo "src"]).
Proof.
  intros Hreply Hdata.
  unfold getMainSourceFiles, getRepositoryContents, axios_get_contents.
  rewrite Hreply. simpl. rewrite Hdata. reflexivity.
Qed.

Lemma getMainSourceFiles_src_not_a_directory_witness :
  let env := Fixture.env_of Fixture.found [("src", Fixture.body "text")]
               (Fixture.completion "# Sample") in
  getMainSourceFiles env 1 "o" "r"
  = (Exn (TypeError "contents is not iterable"), [GetContents "o" "r" "src"]).
Proof.
  intros env.
  apply (getMainSourceFiles_src_not_a_directory env 0 "o" "r"
           {| status := 200%Z; data := Envelope "text" |} "text"); reflexivity.
Defined.

Lemma all_issued_bind {A B} P (m : Net.t A) (k : A -> Net.t B) :
  all_issued P m -> (forall a, all_issued P (k a)) -> all_issued P (Net.bind m k).
Proof.
  unfold all_issued. intros Hm Hk. rewrite issued_bind.
  destruct (Net.outcome m); try assumption.
  apply List.Forall_app. split; [assumption | apply Hk].
Qed.

Lemma all_issued_try_catch {A} P (m : Net.t A) (h : JsError -> Net.t A) :
  all_issued P m -> (forall e, all_issued P (h e)) -> all_issued P (Net.try_catch m h).
Proof.
  unfold all_issued. intros Hm Hh. rewrite issued_try_catch.
  destruct (Net.outcome m); try assumption.
  apply List.Forall_app. split; [assumption | apply Hh].
Qed.

Lemma all_issued_for_of {A B} P (xs : list A) (body : A -> B -> Net.t B) (acc : B) :
  (forall x acc', all_issued P (body x acc')) -> all_issued P (Net.for_of xs body acc).
Proof.
  intros H. revert acc. induction xs as [|x xs IH]; intros acc; simpl.
  - constructor.
  - apply all_issued_bind; auto.
Qed.

Lemma all_issued_getRepositoryContents env owner repo path :
  all_issued (contents_of owner repo) (getRepositoryContents env owner repo path).
Proof.
  unfold all_issued, getRepositoryContents, axios_get_contents.
  destruct (settle (github_contents env owner repo path)); simpl;
    repeat constructor; now exists path.
Qed.

Lemma all_issued_getFileContent env owner repo path :
  all_issued (contents_of owner repo) (getFileContent env owner repo path).
Proof.
  unfold all_issued. rewrite issued_getFileContent.
  repeat constructor. now exists path.
Qed.

Lemma all_issued_getFilesFromDirectory env owner repo fuel contents :
  all_issued (contents_of owner repo) (getFilesFromDirectory env fuel owner repo contents).
Proof.
  revert contents. induction fuel as [|fuel IH]; intros contents; [constructor|].
  destruct contents as [items|b]; [|constructor].
  rewrite getFilesFromDirectory_S. apply all_issued_for_of.
  intros item files. unfold visit.
  destruct (String.eqb (Item.type item) "file").
  - destruct (admitted (Item.name item)); [|constructor].
    apply all_issued_try_catch; [|constructor].
    apply all_issued_bind; [apply all_issued_getFileContent | constructor].
  - destruct (String.eqb (Item.type item) "dir"); [|constructor].
    apply all_issued_try_catch; [|constructor].
    apply all_issued_bind; [apply all_issued_getRepositoryContents|].
    intros sub. apply all_issued_bind; [apply IH | constructor].
Qed.

(** X28. The selector only reads the contents of the repository it is
    given: its first request is the listing of [src], and every further
    request is a contents request for the same owner and repository. *)
Theorem getMainSourceFiles_requests env fuel owner repo :
  exists rest,
    Net.issued (getMainSourceFiles env fuel owner repo)
    = GetContents owner repo "src" :: rest
    /\ List.Forall (contents_of owner repo) rest.
Proof.
  assert (all_issued (contents_of owner repo) (getMainSourceFiles env fuel owner repo))
    as Hall.
  { unfold getMainSourceFiles. apply all_issued_try_catch; [|constructor].
    apply all_issued_bind.
    - apply all_issued_try_catch; [|constructor].
      apply all_issued_bind; [apply all_issued_getRepositoryContents | constructor].
    - intros [srcContents|]; [|constructor].
      apply all_issued_bind; [apply all_issued_getFilesFromDirectory | constructor]. }
  assert (exists rest, Net.issued (getMainSourceFiles env fuel owner repo)
                       = GetContents owner repo "src" :: rest) as [rest Hrest].
  { unfold getMainSourceFiles, getRepositoryContents.
    match goal with
    | |- context [Net.try_catch
                    (Net.bind (Net.try_catch (Net.bind (Net.try_catch (Net.bind ?m ?k) ?h) ?k1) ?h1) ?k2)
                    ?h2] =>
        destruct (issued_try_catch_prefix
                    (Net.bind (Net.try_catch (Net.bind (Net.try_catch (Net.bind m k) h) k1) h1) k2)
                    h2) as [r1 ->];
        destruct (issued_bind_prefix
                    (Net.try_catch (Net.bind (Net.try_catch (Net.bind m k) h) k1) h1) k2)
          as [r2 ->];
        destruct (issued_try_catch_prefix
                    (Net.bind (Net.try_catch (Net.bind m k) h) k1) h1) as [r3 ->];
        destruct (issued_bind_prefix (Net.try_catch (Net.bind m k) h) k1) as [r4 ->];
        destruct (issued_try_catch_prefix (Net.bind m k) h) as [r5 ->];
        destruct (issued_bind_prefix m k) as [r6 ->]
    end.
    simpl. eauto. }
  exists rest. split; [assumption|].
  unfold all_issued in Hall. rewrite Hrest in Hall. now apply List.Forall_inv_tail in Hall.
Qed.

(** ** The test on the name of a file *)

Lemma startsWith_spec (p s : string) :
  startsWith p s = true <-> exists t, s = p +:+ t.
Proof.
  revert s. induction p as [|a p IH]; intros s.
  - split; [intros _; now exists s | reflexivity].
  - destruct s as [|b s]; cbn [startsWith].
    + split; [discriminate | intros [t H]; rewrite append_cons in H; discriminate H].
    + destruct (Ascii.eqb a b) eqn:E.
      * apply Ascii.eqb_eq in E as ->. rewrite IH. split.
        -- intros [t ->]. exists t. now rewrite append_cons.
        -- intros [t H]. rewrite append_cons in H. injection H as ->. now exists t.
      * split; [discriminate|]. intros [t H]. rewrite append_cons in H.
        injection H as -> _. now rewrite Ascii.eqb_refl in E.
Qed.

Lemma includes_spec (p s : string) : includes p s = true <-> Substring p s.
Proof.
  induction s as [|c s IH]; cbn [includes].
  - rewrite orb_false_r, startsWith_spec. split.
    + intros [t H]. now exists "", t.
    + intros (pre & post & H). destruct pre; [now exists post | discriminate H].
  - rewrite orb_true_iff, startsWith_spec, IH. split.
    + intros [[t H] | (pre & post & ->)].
      * now exists "", t.
      * exists (String c pre), post. now rewrite append_cons.
    + intros ([|c' pre] & post & H).
      * left. now exists post.
      * right. rewrite append_cons in H. injection H as _ ->. now exists pre, post.
Qed.

Lemma endsWith_spec (p s : string) :
  endsWith p s = true <-> exists pre, s = pre +:+ p.
Proof.
  induction s as [|c s IH]; cbn [endsWith].
  - rewrite String.eqb_eq. split.
    + intros ->. now exists "".
    + intros [pre H]. destruct pre; [now rewrite append_empty_l in H | discriminate H].
  - rewrite orb_true_iff, String.eqb_eq, IH. split.
    + intros [-> | [pre ->]]; [now exists "" | exists (String c pre)].
      now rewrite append_cons.
    + intros [[|c' pre] H].
      * left. now rewrite append_empty_l in H.
      * right. rewrite append_cons in H. injection H as _ ->. now exists pre.
Qed.

(** X29. What the test of lines 214 to 220 admits: exactly the names that
    end in [.js], [.ts], [.jsx] or [.tsx] and in which none of [.test.],
    [.spec.] and [.config.] occurs.  The test is on the name of the entry,
    with the case as it is. *)
Theorem admitted_spec (name : string) :
  admitted name = true <->
  (exists stem extension,
      name = stem +:+ extension /\ In extension [".js"; ".ts"; ".jsx"; ".tsx"])
  /\ ~ Substring ".test." name
  /\ ~ Substring ".spec." name
  /\ ~ Substring ".config." name.
Proof.
  unfold admitted.
  rewrite !andb_true_iff, !orb_true_iff, !negb_true_iff, !endsWith_spec.
  rewrite <- !includes_spec, !not_true_iff_false.
  split.
  - intros [[[Hext Ht] Hs] Hc]. repeat split; try assumption.
    destruct Hext as [[[[stem ->] | [stem ->]] | [stem ->]] | [stem ->]];
      eexists stem, _; (split; [reflexivity|]); simpl; auto.
  - intros [(stem & extension & -> & Hin) (Ht & Hs & Hc)]. repeat split; try assumption.
    simpl in Hin. destruct Hin as [<- | [<- | [<- | [<- | []]]]]; eauto.
Qed.

(** ** The view buttons *)

#[local] Set Warnings "-clear-no-such-hyp".

